(** * Jewish calendar sensors of Home Assistant

    A shallow embedding of
    [homeassistant/components/jewish_calendar/sensor.py]: the static sensor
    catalog, the day-boundary resolution done by
    [JewishCalendarSensor.async_update], and the two [get_state] methods
    that derive a sensor's value.

    The Hebrew-calendar arithmetic and the computation of the halachic times
    belong to the [hdate] library, the clock and the solar-event lookup to
    the host; both are interfaces here (type classes), and the theorems hold
    for every implementation of them. *)

From stdpp Require Import gmap strings list pretty.
From Stdlib Require Import ZArith Lia.

Open Scope Z_scope.
Open Scope string_scope.

(** ** Python values used by the sensors *)

(** [datetime.date], as its day ordinal. *)
Definition Date : Type := Z.

(** A [tzinfo] object, by its identity. *)
Definition TzInfo : Type := string.

(** A time-zone aware [datetime.datetime]: the instant in microseconds
    since the epoch, the UTC offset that its [tzinfo] gives at that instant,
    in microseconds, and the [tzinfo] object it carries. *)
Record datetime : Type := mk_datetime {
  instant : Z;
  utcoffset : Z;
  tzinfo : TzInfo
}.

Definition USEC_PER_DAY : Z := 86400000000.

(** [dt.date()]: the civil date of [dt] in its own zone. *)
Definition dt_date (dt : datetime) : Date :=
  (instant dt + utcoffset dt) `div` USEC_PER_DAY.

(** The wall-clock reading of [dt] in its own zone: the fields from the
    year to the microsecond, as microseconds. *)
Definition wall_clock (dt : datetime) : Z := instant dt + utcoffset dt.

(** [a > b] on aware datetimes, as Python compares them: when both carry
    the same [tzinfo] object the [tzinfo] is ignored and the wall-clock
    readings are compared; otherwise the instants are. *)
Definition dt_gt (a b : datetime) : bool :=
  if decide (tzinfo a = tzinfo b)
  then bool_decide (wall_clock b < wall_clock a)
  else bool_decide (instant b < instant a).

(** [a] not later than [b] and [a] earlier than [b] in time, as
    propositions. *)
Definition dt_le (a b : datetime) : Prop := instant a <= instant b.

Definition dt_lt (a b : datetime) : Prop := instant a < instant b.

(** What a sensor publishes: [Any | None]. *)
Inductive Value : Type :=
| VNone
| VStr (s : string)
| VInt (z : Z)
| VTime (t : datetime).

(** An [Optional[datetime]] property as a sensor value. *)
Definition of_optional (o : option datetime) : Value :=
  match o with
  | Some t => VTime t
  | None => VNone
  end.

(** The exceptions that subscripting can raise. *)
Inductive Exn : Type :=
| KeyError (k : string)
| IndexError.

(** [l[i]] on a tuple or list: negative indices count from the end, an index
    out of range has no element ([IndexError]). *)
Definition getitem {A : Type} (l : list A) (i : Z) : option A :=
  let n := Z.of_nat (length l) in
  if bool_decide (0 <= i) then l !! Z.to_nat i
  else if bool_decide (- n <= i) then l !! Z.to_nat (n + i)
  else None.

(** The double-quote character, for the display names that contain one. *)
Definition dquote : string :=
  String (Ascii.Ascii false true false false false true false false) EmptyString.

(** ** The sensor catalog *)

Inductive SensorDeviceClass : Type := ENUM | TIMESTAMP.

Record SensorEntityDescription : Type := mk_description {
  key : string;
  name : string;
  icon : string;
  translation_key : option string;
  device_class : option SensorDeviceClass
}.

Definition INFO_SENSORS : list SensorEntityDescription :=
  [ mk_description "date" "Date" "mdi:star-david" (Some "hebrew_date") None;
    mk_description "weekly_portion" "Parshat Hashavua" "mdi:book-open-variant"
      None (Some ENUM);
    mk_description "holiday" "Holiday" "mdi:calendar-star" None (Some ENUM);
    mk_description "omer_count" "Day of the Omer" "mdi:counter" None None;
    mk_description "daf_yomi" "Daf Yomi" "mdi:book-open-variant" None None ].

Definition TIME_SENSORS : list SensorEntityDescription :=
  [ mk_description "first_light" "Alot Hashachar" "mdi:weather-sunset-up"
      None None;
    mk_description "talit" "Talit and Tefillin" "mdi:calendar-clock" None None;
    mk_description "sunrise" "Hanetz Hachama" "mdi:calendar-clock" None None;
    mk_description "gra_end_shma"
      ("Latest time for Shma Gr" +:+ dquote +:+ "a") "mdi:calendar-clock"
      None None;
    mk_description "mga_end_shma"
      ("Latest time for Shma MG" +:+ dquote +:+ "A") "mdi:calendar-clock"
      None None;
    mk_description "gra_end_tfila"
      ("Latest time for Tefilla Gr" +:+ dquote +:+ "a") "mdi:calendar-clock"
      None None;
    mk_description "mga_end_tfila"
      ("Latest time for Tefilla MG" +:+ dquote +:+ "A") "mdi:calendar-clock"
      None None;
    mk_description "midday" "Chatzot Hayom" "mdi:calendar-clock" None None;
    mk_description "big_mincha" "Mincha Gedola" "mdi:calendar-clock" None None;
    mk_description "small_mincha" "Mincha Ketana" "mdi:calendar-clock"
      None None;
    mk_description "plag_mincha" "Plag Hamincha" "mdi:weather-sunset-down"
      None None;
    mk_description "sunset" "Shkia" "mdi:weather-sunset" None None;
    mk_description "first_stars" "T'set Hakochavim" "mdi:weather-night"
      None None;
    mk_description "three_stars" "T'set Hakochavim, 3 stars"
      "mdi:weather-night" None None;
    mk_description "upcoming_shabbat_candle_lighting"
      "Upcoming Shabbat Candle Lighting" "mdi:candle" None None;
    mk_description "upcoming_shabbat_havdalah" "Upcoming Shabbat Havdalah"
      "mdi:weather-night" None None;
    mk_description "upcoming_candle_lighting" "Upcoming Candle Lighting"
      "mdi:candle" None None;
    mk_description "upcoming_havdalah" "Upcoming Havdalah" "mdi:weather-night"
      None None ].


(** ** The hdate library

    The sensors construct [HDate] and [Zmanim] objects and read their
    properties; what the properties compute is the library's business. *)

(** A member of a Python [Enum]: [Months], [HolidayTypes]. *)
Module Enum.
Record t : Type := mk { name : string; value : Z }.
End Enum.

(** [hdate.HebrewDate]. *)
Record HebrewDate : Type := mk_HebrewDate {
  year : Z;
  month : Enum.t;
  day : Z
}.

(** Modelled from the spec: [hdate.HDate], a Hebrew calendar date anchored
    to a civil date, carrying the diaspora and language configuration it was
    constructed with; [next_day] and [previous_day] move the civil date by
    one day and keep the configuration. *)
Module HDate.
Record t : Type := mk { gdate : Date; diaspora : bool; hebrew : bool }.

Definition next_day (d : t) : t := mk (gdate d + 1) (diaspora d) (hebrew d).

Definition previous_day (d : t) : t :=
  mk (gdate d - 1) (diaspora d) (hebrew d).
End HDate.

(** Modelled from the spec: the location of the configuration entry;
    coordinates in fixed point. *)
Record Location : Type := mk_Location {
  latitude : Z;
  longitude : Z;
  elevation : Z;
  timezone : string
}.

(** The [date] argument of [Zmanim]: [make_zmanim] is called with a
    [date] and, by the daily time sensors, with a [datetime], which is a
    subclass of [date]. *)
Inductive DateLike : Type :=
| a_date (d : Date)
| a_datetime (t : datetime).

Definition civil_date (d : DateLike) : Date :=
  match d with
  | a_date d => d
  | a_datetime t => dt_date t
  end.

(** Modelled from the spec: [hdate.zmanim.Zmanim], the time table for one
    civil date, location, pair of offsets and language.  A [datetime]
    given as [date] stands for its civil date. *)
Module Zmanim.
Record t : Type := mk {
  date : Date;
  location : Location;
  candle_lighting_offset : Z;
  havdalah_offset : Z;
  hebrew : bool
}.

Definition new (date : DateLike) (location : Location)
    (candle_lighting_offset havdalah_offset : Z) (hebrew : bool) : t :=
  mk (civil_date date) location candle_lighting_offset havdalah_offset hebrew.
End Zmanim.

(** The entries of [hdate.htables]. *)
Module htables.
(** An entry of [MONTHS] and of [PARASHAOT]. *)
Record LANG : Type := mk_LANG { hebrew : string; english : string }.

(** [h.description.hebrew] of a holiday: a long and a short form. *)
Record HEBREW : Type := mk_HEBREW { long : string; short : string }.

(** [h.description] of a holiday. *)
Record DESC : Type := mk_DESC { desc_hebrew : HEBREW; desc_english : string }.

(** An entry of [HOLIDAYS]. *)
Record HOLIDAY : Type := mk_HOLIDAY {
  holiday_id : string;
  description : DESC
}.
End htables.

(** What the sensors read from the library. *)
Class Hdate : Type := {
  (* properties of an HDate *)
  hdate : HDate.t -> HebrewDate;
  hebrew_date : HDate.t -> string;
  holiday_name : HDate.t -> string;
  holiday_type : HDate.t -> Enum.t;
  holiday_description : HDate.t -> string;
  omer_day : HDate.t -> Z;
  daf_yomi : HDate.t -> string;
  parasha : HDate.t -> string;
  upcoming_shabbat : HDate.t -> HDate.t;
  upcoming_shabbat_or_yom_tov : HDate.t -> HDate.t;
  first_day : HDate.t -> HDate.t;
  last_day : HDate.t -> HDate.t;
  (* htables *)
  MONTHS : list htables.LANG;
  PARASHAOT : list htables.LANG;
  HOLIDAYS : list htables.HOLIDAY;
  (* properties of a Zmanim *)
  candle_lighting : Zmanim.t -> option datetime;
  havdalah : Zmanim.t -> option datetime;
  zmanim : Zmanim.t -> gmap string datetime
}.

(** ** The host *)

Inductive SunEvent : Type := SUN_EVENT_SUNRISE | SUN_EVENT_SUNSET.

(** Modelled from the spec: the helpers of Home Assistant that the sensors
    call.  [clock n] is the [n]-th reading of [dt_util.now()];
    [get_astral_event_date] is the solar-event lookup, which has no answer
    on some dates; [DEFAULT_TIME_ZONE] is the [tzinfo] object of the
    configured time zone, which the readings of [dt_util.now()] carry, and
    [local_utcoffset] its UTC offset at an instant; [DEFAULT_NAME] comes
    from the integration's constants. *)
Class Host : Type := {
  DEFAULT_NAME : string;
  clock : nat -> datetime;
  DEFAULT_TIME_ZONE : TzInfo;
  local_utcoffset : Z -> Z;
  get_astral_event_date : SunEvent -> Date -> option datetime
}.

(** [dt_util.as_local]: the same instant in the configured time zone. *)
Definition as_local `{Host} (dt : datetime) : datetime :=
  mk_datetime (instant dt) (local_utcoffset (instant dt)) DEFAULT_TIME_ZONE.

(** The configuration entry's data, [hass.data[DOMAIN][entry_id]]. *)
Record EntryData : Type := mk_EntryData {
  CONF_LOCATION : Location;
  CONF_LANGUAGE : string;
  CONF_CANDLE_LIGHT_MINUTES : Z;
  CONF_HAVDALAH_OFFSET_MINUTES : Z;
  CONF_DIASPORA : bool
}.

(** ** Sensor objects and the effects of their methods *)

Record Sensor : Type := mk_Sensor {
  entity_description : SensorEntityDescription;
  _attr_name : string;
  _attr_unique_id : string;
  _location : Location;
  _hebrew : bool;
  _candle_lighting_offset : Z;
  _havdalah_offset : Z;
  _diaspora : bool;
  _attrs : gmap string Value;
  _attr_options : option (list string);
  _attr_native_value : Value
}.

Inductive LogLevel : Type := DEBUG | ERROR.

(** The calls a method makes to its collaborators, in order. *)
Inductive Call : Type :=
| call_now (t : datetime)
| call_get_astral_event_date (e : SunEvent) (d : Date)
| call_HDate (d : HDate.t)
| call_Zmanim (z : Zmanim.t)
| call_log (l : LogLevel) (msg : string).

(** The state a method runs in: the sensor object, the number of clock
    readings taken so far and the calls made so far, latest first. *)
Record State : Type := mk_State {
  self : Sensor;
  ticks : nat;
  calls : list Call
}.

Inductive Result (A : Type) : Type :=
| Ok (a : A)
| Raise (e : Exn).
Arguments Ok {A} a.
Arguments Raise {A} e.

(** A method: it returns or raises, and leaves a state. *)
Definition M (A : Type) : Type := State -> Result A * State.

#[global] Instance M_ret : MRet M := fun A a st => (Ok a, st).

#[global] Instance M_bind : MBind M := fun A B f m st =>
  match m st with
  | (Ok a, st') => f a st'
  | (Raise e, st') => (Raise e, st')
  end.

Definition raise {A : Type} (e : Exn) : M A := fun st => (Raise e, st).

Definition get_self : M Sensor := fun st => (Ok (self st), st).

Definition put_self (s : Sensor) : M unit :=
  fun st => (Ok tt, mk_State s (ticks st) (calls st)).

Definition emit (c : Call) : M unit :=
  fun st => (Ok tt, mk_State (self st) (ticks st) (c :: calls st)).

(** The object [s] after an assignment to one of its attributes. *)
Definition with_attrs (s : Sensor) (a : gmap string Value) : Sensor :=
  mk_Sensor (entity_description s) (_attr_name s) (_attr_unique_id s)
    (_location s) (_hebrew s) (_candle_lighting_offset s) (_havdalah_offset s)
    (_diaspora s) a (_attr_options s) (_attr_native_value s).

Definition with_attr_options (s : Sensor) (o : list string) : Sensor :=
  mk_Sensor (entity_description s) (_attr_name s) (_attr_unique_id s)
    (_location s) (_hebrew s) (_candle_lighting_offset s) (_havdalah_offset s)
    (_diaspora s) (_attrs s) (Some o) (_attr_native_value s).

Definition with_attr_native_value (s : Sensor) (v : Value) : Sensor :=
  mk_Sensor (entity_description s) (_attr_name s) (_attr_unique_id s)
    (_location s) (_hebrew s) (_candle_lighting_offset s) (_havdalah_offset s)
    (_diaspora s) (_attrs s) (_attr_options s) v.

(** [self._attrs = a]. *)
Definition set_attrs (a : gmap string Value) : M unit :=
  s ← get_self;
  put_self (with_attrs s a).

(** [self._attr_options = o]. *)
Definition set_attr_options (o : list string) : M unit :=
  s ← get_self;
  put_self (with_attr_options s o).

(** [self._attr_native_value = v]. *)
Definition set_attr_native_value (v : Value) : M unit :=
  s ← get_self;
  put_self (with_attr_native_value s v).

(** [_LOGGER.debug] and [_LOGGER.error]. *)
Definition log (l : LogLevel) (msg : string) : M unit := emit (call_log l msg).

(** [dt_util.now()]: the next reading of the clock. *)
Definition dt_util_now `{Host} : M datetime := fun st =>
  let t := clock (ticks st) in
  (Ok t, mk_State (self st) (S (ticks st)) (call_now t :: calls st)).

(** [l[i]], raising [IndexError]. *)
Definition subscript {A : Type} (l : list A) (i : Z) : M A :=
  match getitem l i with
  | Some x => mret x
  | None => raise IndexError
  end.

(** [d[k]] on a dict, raising [KeyError]. *)
Definition lookup_key {A : Type} (d : gmap string A) (k : string) : M A :=
  match d !! k with
  | Some x => mret x
  | None => raise (KeyError k)
  end.

(** ** class JewishCalendarSensor *)

Module JewishCalendarSensor.
Section Methods.
Context `{Hdate} `{Host}.

(** [__init__(self, entry_id, data, description)]. *)
Definition __init__ (entry_id : string) (data : EntryData)
    (description : SensorEntityDescription) : Sensor :=
  {| entity_description := description;
     _attr_name := DEFAULT_NAME +:+ " " +:+ name description;
     _attr_unique_id := entry_id +:+ "-" +:+ key description;
     _location := CONF_LOCATION data;
     _hebrew := bool_decide (CONF_LANGUAGE data = "hebrew");
     _candle_lighting_offset := CONF_CANDLE_LIGHT_MINUTES data;
     _havdalah_offset := CONF_HAVDALAH_OFFSET_MINUTES data;
     _diaspora := CONF_DIASPORA data;
     _attrs := ∅;
     _attr_options := None;
     _attr_native_value := VNone |}.

(** [make_zmanim(self, date)]. *)
Definition make_zmanim (date : DateLike) : M Zmanim.t :=
  s ← get_self;
  let z := Zmanim.new date (_location s) (_candle_lighting_offset s)
             (_havdalah_offset s) (_hebrew s) in
  emit (call_Zmanim z);;
  mret z.

(** [extra_state_attributes]. *)
Definition extra_state_attributes (s : Sensor) : gmap string Value :=
  _attrs s.

(** The two assignments of [async_update] that move a date to the next
    day: [after_shkia_date], once [now] is past sunset, and
    [after_tzais_date], once the day has a havdalah time and [now] is
    past it. *)
Definition after_shkia_date (now sunset : datetime)
    (daytime_date : HDate.t) : HDate.t :=
  if dt_gt now sunset then HDate.next_day daytime_date else daytime_date.

Definition after_tzais_date (now : datetime) (today_times : Zmanim.t)
    (daytime_date : HDate.t) : HDate.t :=
  match havdalah today_times with
  | Some t => if dt_gt now t then HDate.next_day daytime_date
              else daytime_date
  | None => daytime_date
  end.

(** [async_update(self)].  [get_state] is [self.get_state], bound by the
    class of the object. *)
Definition async_update
    (get_state : HDate.t -> HDate.t -> HDate.t -> M Value) : M unit :=
  now ← dt_util_now;
  log DEBUG "Now: %s Location: %r";;
  let today := dt_date now in
  emit (call_get_astral_event_date SUN_EVENT_SUNSET today);;
  match get_astral_event_date SUN_EVENT_SUNSET today with
  | None => log ERROR "Can't get sunset event date for %s"
  | Some event_date =>
      let sunset := as_local event_date in
      log DEBUG "Now: %s Sunset: %s";;
      s ← get_self;
      let daytime_date := HDate.mk today (_diaspora s) (_hebrew s) in
      emit (call_HDate daytime_date);;
      today_times ← make_zmanim (a_date today);
      v ← get_state daytime_date
            (after_shkia_date now sunset daytime_date)
            (after_tzais_date now today_times daytime_date);
      set_attr_native_value v;;
      log DEBUG "New value for %s: %s"
  end.

(** [get_state(self, daytime_date, after_shkia_date, after_tzais_date)]. *)
Definition get_state (daytime_date after_shkia_date after_tzais_date : HDate.t)
    : M Value :=
  s ← get_self;
  let k := key (entity_description s) in
  if decide (k = "date") then
    let hd := hdate after_shkia_date in
    month ← subscript MONTHS (Enum.value (month hd) - 1);
    set_attrs
      {[ "hebrew_year" := VInt (year hd);
         "hebrew_month_name" :=
           VStr (if _hebrew s then htables.hebrew month
                 else htables.english month);
         "hebrew_day" := VInt (day hd) ]};;
    mret (VStr (hebrew_date after_shkia_date))
  else if decide (k = "weekly_portion") then
    set_attr_options
      (map (fun p => if _hebrew s then htables.hebrew p
                     else htables.english p) PARASHAOT);;
    mret (VStr (parasha (upcoming_shabbat after_tzais_date)))
  else if decide (k = "holiday") then
    set_attrs
      {[ "id" := VStr (holiday_name after_shkia_date);
         "type" := VStr (Enum.name (holiday_type after_shkia_date));
         "type_id" := VInt (Enum.value (holiday_type after_shkia_date)) ]};;
    set_attr_options
      (map (fun h =>
              if _hebrew s
              then htables.long (htables.desc_hebrew (htables.description h))
              else htables.desc_english (htables.description h)) HOLIDAYS);;
    mret (VStr (holiday_description after_shkia_date))
  else if decide (k = "omer_count") then
    mret (VInt (omer_day after_shkia_date))
  else if decide (k = "daf_yomi") then
    mret (VStr (daf_yomi daytime_date))
  else
    mret VNone.
End Methods.
End JewishCalendarSensor.

(** ** class JewishCalendarTimeSensor(JewishCalendarSensor) *)

Module JewishCalendarTimeSensor.
Section Methods.
Context `{Hdate} `{Host}.

Definition _attr_device_class : SensorDeviceClass := TIMESTAMP.

(** [get_state], overriding the one of [JewishCalendarSensor]. *)
Definition get_state (daytime_date after_shkia_date after_tzais_date : HDate.t)
    : M Value :=
  s ← get_self;
  let k := key (entity_description s) in
  if decide (k = "upcoming_shabbat_candle_lighting") then
    times ← JewishCalendarSensor.make_zmanim
              (a_date (HDate.gdate
                 (HDate.previous_day (upcoming_shabbat after_tzais_date))));
    mret (of_optional (candle_lighting times))
  else if decide (k = "upcoming_candle_lighting") then
    times ← JewishCalendarSensor.make_zmanim
              (a_date (HDate.gdate
                 (HDate.previous_day
                    (first_day (upcoming_shabbat_or_yom_tov after_tzais_date)))));
    mret (of_optional (candle_lighting times))
  else if decide (k = "upcoming_shabbat_havdalah") then
    times ← JewishCalendarSensor.make_zmanim
              (a_date (HDate.gdate (upcoming_shabbat after_tzais_date)));
    mret (of_optional (havdalah times))
  else if decide (k = "upcoming_havdalah") then
    times ← JewishCalendarSensor.make_zmanim
              (a_date (HDate.gdate
                 (last_day (upcoming_shabbat_or_yom_tov after_tzais_date))));
    mret (of_optional (havdalah times))
  else
    now ← dt_util_now;
    z ← JewishCalendarSensor.make_zmanim (a_datetime now);
    let times := zmanim z in
    t ← lookup_key times k;
    mret (VTime t).

(** The inherited [async_update], with [self.get_state] bound here. *)
Definition async_update : M unit :=
  JewishCalendarSensor.async_update get_state.
End Methods.
End JewishCalendarTimeSensor.

(** ** Setting up and polling the sensors *)

(** The class of a sensor object. *)
Inductive SensorClass : Type := InfoSensor | TimeSensor.

Section Platform.
Context `{Hdate} `{Host}.

(** [self.get_state], by the class of [self]. *)
Definition get_state (c : SensorClass)
    : HDate.t -> HDate.t -> HDate.t -> M Value :=
  match c with
  | InfoSensor => JewishCalendarSensor.get_state
  | TimeSensor => JewishCalendarTimeSensor.get_state
  end.

(** [self.async_update()], by the class of [self]. *)
Definition async_update (c : SensorClass) : M unit :=
  JewishCalendarSensor.async_update (get_state c).

(** The list [sensors] that [async_setup_entry] hands to the host. *)
Definition async_setup_entry (entry_id : string) (entry : EntryData)
    : list (SensorClass * Sensor) :=
  map (fun description =>
         (InfoSensor, JewishCalendarSensor.__init__ entry_id entry description))
      INFO_SENSORS
  ++ map (fun description =>
            (TimeSensor,
             JewishCalendarSensor.__init__ entry_id entry description))
       TIME_SENSORS.

(** One polling cycle of the host: the update runs, and an exception it
    raises is the host's to log; the state it leaves stays. *)
Definition poll (c : SensorClass) (st : State) : State :=
  snd (async_update c st).

(** [n] polling cycles. *)
Fixpoint poll_n (c : SensorClass) (n : nat) (st : State) : State :=
  match n with
  | O => st
  | S n => poll_n c n (poll c st)
  end.

(** The state of a sensor object when the host starts polling it. *)
Definition initial_state (s : Sensor) : State := mk_State s 0 [].
End Platform.

(** ** A small implementation of the interfaces

    Enough of a calendar and of a host to run the sensors on concrete
    inputs.  Day 0 is a Thursday, so the Saturdays are the days 2, 9, ...;
    the zone is two hours east of UTC; the sun sets at 18:00, candles are
    lit at 17:40 on Fridays and havdalah is at 19:00 on Saturdays, and on no
    other day. *)

Module Sample.
Definition HOUR : Z := 3600000000.
Definition MINUTE : Z := 60000000.
Definition zone : Z := 2 * HOUR.

(** The local time [h]:[m] on the civil date [d]. *)
Definition at_ (d : Date) (h m : Z) : datetime :=
  mk_datetime (d * USEC_PER_DAY + h * HOUR + m * MINUTE - zone) zone
    "Asia/Jerusalem".

Definition weekday (d : Date) : Z := d `mod` 7.

Definition shabbat_from (d : HDate.t) : HDate.t :=
  HDate.mk (HDate.gdate d + (2 - HDate.gdate d) `mod` 7)
    (HDate.diaspora d) (HDate.hebrew d).

Definition times_of (z : Zmanim.t) : gmap string datetime :=
  {[ "sunrise" := at_ (Zmanim.date z) 6 0;
     "midday" := at_ (Zmanim.date z) 12 0;
     "sunset" := at_ (Zmanim.date z) 18 0 ]}.

Definition calendar : Hdate :=
  {| hdate d := mk_HebrewDate 5784 (Enum.mk "TISHREI" 1)
                  (HDate.gdate d `mod` 30 + 1);
     hebrew_date d := pretty (HDate.gdate d `mod` 30 + 1) +:+ " Tishrei 5784";
     holiday_name d :=
       if bool_decide (weekday (HDate.gdate d) = 0) then "rosh_hashana_i"
       else "";
     holiday_type d :=
       if bool_decide (weekday (HDate.gdate d) = 0) then Enum.mk "YOM_TOV" 1
       else Enum.mk "UNKNOWN" 0;
     holiday_description d :=
       if bool_decide (weekday (HDate.gdate d) = 0) then "Rosh Hashana I"
       else "";
     omer_day d := 0;
     daf_yomi d := "Kiddushin " +:+ pretty (HDate.gdate d `mod` 80 + 2);
     parasha d := "Week " +:+ pretty (HDate.gdate d `div` 7);
     upcoming_shabbat := shabbat_from;
     upcoming_shabbat_or_yom_tov := shabbat_from;
     first_day d := d;
     last_day d := d;
     MONTHS := [htables.mk_LANG "tishrei" "Tishrei";
                htables.mk_LANG "marcheshvan" "Marcheshvan"];
     PARASHAOT := [htables.mk_LANG "bereshit" "Bereshit";
                   htables.mk_LANG "noach" "Noach"];
     HOLIDAYS := [htables.mk_HOLIDAY "rosh_hashana_i"
                    (htables.mk_DESC (htables.mk_HEBREW "rosh hashana a" "r.h. a")
                       "Rosh Hashana I")];
     candle_lighting z :=
       if bool_decide (weekday (Zmanim.date z) = 1)
       then Some (at_ (Zmanim.date z) 17 40) else None;
     havdalah z :=
       if bool_decide (weekday (Zmanim.date z) = 2)
       then Some (at_ (Zmanim.date z) 19 0) else None;
     zmanim := times_of |}.

(** A host whose clock gives the readings [readings], then repeats the
    last of them, and whose sunset lookup answers on the days below
    [dark_from] only. *)
Definition host (readings : list datetime) (dark_from : Date) : Host :=
  {| DEFAULT_NAME := "Jewish Calendar";
     clock n := default (default (at_ 0 0 0) (last readings)) (readings !! n);
     DEFAULT_TIME_ZONE := "Asia/Jerusalem";
     local_utcoffset _ := zone;
     get_astral_event_date e d :=
       if bool_decide (d < dark_from)
       then Some (mk_datetime (instant (at_ d 18 0)) 0 "UTC") else None |}.

Definition jerusalem : Location := mk_Location 31778000 35235000 754 "Asia/Jerusalem".

Definition entry : EntryData := mk_EntryData jerusalem "english" 40 0 false.

(** The sensor object for a key, as set up for [entry], and the state
    in which its first update starts. *)
Definition sensor (k : string) : Sensor :=
  @JewishCalendarSensor.__init__ (host [] 0) "entry" entry
    (mk_description k k "mdi:calendar-clock" None None).

Definition start (k : string) : State := initial_state (sensor k).

(** Saturday at 18:30, between sunset and havdalah; Saturday at 19:30,
    after havdalah; Monday at noon; Monday at 20:00. *)
Definition twilight : Host := host [at_ 2 18 30] 100.
Definition noon : Host := host [at_ 4 12 0] 100.
Definition evening : Host := host [at_ 4 20 0] 100.

(** Monday, a minute before midnight when the update starts and a minute
    after it when the value is derived. *)
Definition midnight : Host := host [at_ 4 23 59; at_ 5 0 1] 100.

(** Monday at noon, where the sun does not set. *)
Definition polar : Host := host [at_ 4 12 0] 0.

(** Saturday, day 2, the Sunday after it, and Thursday, day 7. *)
Definition saturday : HDate.t := HDate.mk 2 false false.
Definition sunday : HDate.t := HDate.mk 3 false false.
Definition thursday : HDate.t := HDate.mk 7 false false.

(** The answer of the sunset lookup for the day [d]. *)
Definition sunset_of (d : Date) : datetime :=
  mk_datetime (instant (at_ d 18 0)) 0 "UTC".

(** A night on which the clocks go back: the zone is three hours east of
    UTC until 02:00 of day 4 and two hours from then on, so the hour from
    01:00 to 02:00 comes twice.  The sunset lookup answers with the first
    01:40, and the clock reads the second 01:10, half an hour later. *)
Definition fall_back_sunset : datetime :=
  mk_datetime (4 * USEC_PER_DAY + 1 * HOUR + 40 * MINUTE - 3 * HOUR) 0 "UTC".

Definition fall_back_now : datetime :=
  mk_datetime (4 * USEC_PER_DAY + 1 * HOUR + 10 * MINUTE - 2 * HOUR)
    (2 * HOUR) "Asia/Jerusalem".

Definition fall_back : Host :=
  {| DEFAULT_NAME := "Jewish Calendar";
     clock _ := fall_back_now;
     DEFAULT_TIME_ZONE := "Asia/Jerusalem";
     local_utcoffset i :=
       if bool_decide (i < 4 * USEC_PER_DAY - 1 * HOUR) then 3 * HOUR
       else 2 * HOUR;
     get_astral_event_date e d := Some fall_back_sunset |}.
End Sample.

(** ** One update cycle, seen from outside *)

(** The keys that have a branch of their own in [get_state] of
    [JewishCalendarSensor] and of [JewishCalendarTimeSensor]. *)
Definition info_keys : list string :=
  ["date"; "weekly_portion"; "holiday"; "omer_count"; "daf_yomi"].

Definition upcoming_keys : list string :=
  ["upcoming_shabbat_candle_lighting"; "upcoming_candle_lighting";
   "upcoming_shabbat_havdalah"; "upcoming_havdalah"].

(** The whole catalog, in the order of [async_setup_entry]. *)
Definition catalog : list SensorEntityDescription :=
  INFO_SENSORS ++ TIME_SENSORS.

(** The spec's [CalendarMoment]: the three dates that [async_update] hands
    to [get_state]. *)
Record CalendarMoment : Type := mk_CalendarMoment {
  plain : HDate.t;
  afterSunset : HDate.t;
  afterNightfall : HDate.t
}.

Section Cycle.
Context `{Hdate} `{Host}.

(** The civil date of the clock reading that starts the cycle. *)
Definition today (st : State) : Date := dt_date (clock (ticks st)).

(** [daytime_date] and [today_times] of the cycle. *)
Definition daytime_date (st : State) : HDate.t :=
  HDate.mk (today st) (_diaspora (self st)) (_hebrew (self st)).

(** The table that [make_zmanim] constructs for [date]. *)
Definition zmanim_for (s : Sensor) (date : DateLike) : Zmanim.t :=
  Zmanim.new date (_location s) (_candle_lighting_offset s)
    (_havdalah_offset s) (_hebrew s).

Definition today_times (st : State) : Zmanim.t :=
  zmanim_for (self st) (a_date (today st)).

(** The table a daily time sensor reads: [get_state] takes a clock
    reading of its own, the one after the reading that started the cycle,
    and makes the table for it. *)
Definition daily_times (st : State) : Zmanim.t :=
  zmanim_for (self st) (a_datetime (clock (S (ticks st)))).

(** [st] after one more call. *)
Definition called (c : Call) (st : State) : State :=
  mk_State (self st) (ticks st) (c :: calls st).

(** The dates of the cycle, given the sunset of today. *)
Definition resolve (st : State) (sunset : datetime) : CalendarMoment :=
  {| plain := daytime_date st;
     afterSunset :=
       JewishCalendarSensor.after_shkia_date (clock (ticks st)) sunset
         (daytime_date st);
     afterNightfall :=
       JewishCalendarSensor.after_tzais_date (clock (ticks st))
         (today_times st) (daytime_date st) |}.

(** The state in which [get_state] is entered: the sensor object as it
    was, one clock reading taken, and the calls made on the way. *)
Definition resolved_state (st : State) : State :=
  mk_State (self st) (S (ticks st))
    (call_Zmanim (today_times st)
     :: call_HDate (daytime_date st)
     :: call_log DEBUG "Now: %s Sunset: %s"
     :: call_get_astral_event_date SUN_EVENT_SUNSET (today st)
     :: call_log DEBUG "Now: %s Location: %r"
     :: call_now (clock (ticks st))
     :: calls st).

(** The state a cycle leaves when the sunset lookup has no answer. *)
Definition skipped_state (st : State) : State :=
  mk_State (self st) (S (ticks st))
    (call_log ERROR "Can't get sunset event date for %s"
     :: call_get_astral_event_date SUN_EVENT_SUNSET (today st)
     :: call_log DEBUG "Now: %s Location: %r"
     :: call_now (clock (ticks st))
     :: calls st).

(** What is left of [async_update] once [get_state] is entered. *)
Definition publish (m : M Value) : M unit :=
  v ← m;
  set_attr_native_value v;;
  log DEBUG "New value for %s: %s".
End Cycle.

(** ** What an update leaves alone, and what it costs *)

(** The configuration of a sensor object: the attributes that [__init__]
    sets and that no other method assigns. *)
Definition same_configuration (s s' : Sensor) : Prop :=
  entity_description s' = entity_description s /\
  _attr_name s' = _attr_name s /\
  _attr_unique_id s' = _attr_unique_id s /\
  _location s' = _location s /\
  _hebrew s' = _hebrew s /\
  _candle_lighting_offset s' = _candle_lighting_offset s /\
  _havdalah_offset s' = _havdalah_offset s /\
  _diaspora s' = _diaspora s.

(** The number of [Zmanim] tables constructed, from the calls made. *)
Fixpoint tables_made (cs : list Call) : nat :=
  match cs with
  | [] => 0
  | call_Zmanim _ :: cs => S (tables_made cs)
  | _ :: cs => tables_made cs
  end.

(** A value that a sensor of device class [TIMESTAMP] may show. *)
Definition timestamp_or_none (v : Value) : Prop :=
  match v with
  | VNone | VTime _ => True
  | VStr _ | VInt _ => False
  end.

(** The hyphen between the entry id and the key in a unique id. *)
Definition hyphen : Ascii.ascii :=
  Ascii.Ascii true false true true false true false false.

(** Whether a string has no hyphen in it. *)
Fixpoint hyphen_free (s : string) : bool :=
  match s with
  | EmptyString => true
  | String c s => if Ascii.eqb c hyphen then false else hyphen_free s
  end.

(** The calendar of [Sample] with an empty table of months. *)
Definition no_months : Hdate :=
  {| hdate := @hdate Sample.calendar;
     hebrew_date := @hebrew_date Sample.calendar;
     holiday_name := @holiday_name Sample.calendar;
     holiday_type := @holiday_type Sample.calendar;
     holiday_description := @holiday_description Sample.calendar;
     omer_day := @omer_day Sample.calendar;
     daf_yomi := @daf_yomi Sample.calendar;
     parasha := @parasha Sample.calendar;
     upcoming_shabbat := @upcoming_shabbat Sample.calendar;
     upcoming_shabbat_or_yom_tov := @upcoming_shabbat_or_yom_tov Sample.calendar;
     first_day := @first_day Sample.calendar;
     last_day := @last_day Sample.calendar;
     MONTHS := [];
     PARASHAOT := @PARASHAOT Sample.calendar;
     HOLIDAYS := @HOLIDAYS Sample.calendar;
     candle_lighting := @candle_lighting Sample.calendar;
     havdalah := @havdalah Sample.calendar;
     zmanim := @zmanim Sample.calendar |}.

(** The omer and the holiday sensors of the catalog, as set up for
    [Sample.entry]. *)
Definition omer_sensor : Sensor :=
  @JewishCalendarSensor.__init__ Sample.noon "entry" Sample.entry
    (mk_description "omer_count" "Day of the Omer" "mdi:counter" None None).

Definition holiday_sensor : Sensor :=
  @JewishCalendarSensor.__init__ Sample.noon "entry" Sample.entry
    (mk_description "holiday" "Holiday" "mdi:calendar-star" None (Some ENUM)).

(** * Properties *)

Ltac unfold_methods :=
  unfold JewishCalendarSensor.async_update, JewishCalendarSensor.make_zmanim,
    publish, set_attr_native_value, set_attrs, set_attr_options, log, emit,
    get_self, put_self, dt_util_now, subscript, lookup_key, raise,
    mbind, M_bind, mret, M_ret in *.

Ltac by_computation :=
  vm_compute; first [reflexivity | discriminate | intro; discriminate].

(** Case analysis on the key of the sensor of [st], as the chain of
    comparisons in [get_state] makes it. *)
Ltac split_key st :=
  match goal with
  | |- context [decide (key (entity_description (self st)) = ?x)] =>
      destruct (decide (key (entity_description (self st)) = x));
      cbn; try contradiction
  end.

Ltac by_decide := apply (bool_decide_unpack _); vm_compute; reflexivity.

Section Properties.
Context `{Hdate} `{Host}.



Lemma dt_gt_same_offset (a b : datetime) :
  utcoffset a = utcoffset b ->
  (dt_le a b -> dt_gt a b = false) /\ (dt_lt b a -> dt_gt a b = true).
Proof.
  intros Hoff. unfold dt_gt, dt_le, dt_lt, wall_clock.
  split; intros Hcmp; case_decide.
  - apply bool_decide_eq_false. lia.
  - apply bool_decide_eq_false. lia.
  - apply bool_decide_eq_true. lia.
  - apply bool_decide_eq_true. lia.
Qed.


(** With a sunset for today, [async_update] enters [get_state] on the
    dates of [resolve] and publishes what it returns. *)
Lemma async_update_resolved
    (gs : HDate.t -> HDate.t -> HDate.t -> M Value) (st : State)
    (event_date : datetime) :
  get_astral_event_date SUN_EVENT_SUNSET (today st) = Some event_date ->
  JewishCalendarSensor.async_update gs st =
  publish (gs (plain (resolve st (as_local event_date)))
              (afterSunset (resolve st (as_local event_date)))
              (afterNightfall (resolve st (as_local event_date))))
    (resolved_state st).
Proof.
  intros Hsun. unfold_methods. unfold today in Hsun. cbn. rewrite Hsun.
  reflexivity.
Qed.

(** Without one, it logs the failure and returns. *)
Lemma async_update_skipped
    (gs : HDate.t -> HDate.t -> HDate.t -> M Value) (st : State) :
  get_astral_event_date SUN_EVENT_SUNSET (today st) = None ->
  JewishCalendarSensor.async_update gs st = (Ok tt, skipped_state st).
Proof.
  intros Hsun. unfold_methods. unfold today in Hsun. cbn. rewrite Hsun.
  reflexivity.
Qed.

Lemma publish_ok (m : M Value) (st st' : State) (v : Value) :
  m st = (Ok v, st') ->
  publish m st =
  (Ok tt,
   mk_State (with_attr_native_value (self st') v) (ticks st')
     (call_log DEBUG "New value for %s: %s" :: calls st')).
Proof. intros Hm. unfold_methods. rewrite Hm. reflexivity. Qed.

Lemma publish_raise (m : M Value) (st st' : State) (e : Exn) :
  m st = (Raise e, st') -> publish m st = (Raise e, st').
Proof. intros Hm. unfold_methods. rewrite Hm. reflexivity. Qed.


(** C6. No sunset data: when the sunset lookup for today's civil date has
    no answer, the update returns at once, whatever [get_state] is: the
    sensor object, with its value, attributes and options, is the one it
    was, and the only calls made are the clock reading, the lookup and
    the two log lines; no [HDate] and no [Zmanim] is constructed and
    [get_state] is not entered. *)
Theorem no_sunset_data_skips_cycle
    (gs : HDate.t -> HDate.t -> HDate.t -> M Value) (c : SensorClass)
    (st : State) :
  get_astral_event_date SUN_EVENT_SUNSET (today st) = None ->
  JewishCalendarSensor.async_update gs st = (Ok tt, skipped_state st) /\
  async_update c st = (Ok tt, skipped_state st) /\
  self (poll c st) = self st /\
  calls (poll c st) =
    call_log ERROR "Can't get sunset event date for %s"
    :: call_get_astral_event_date SUN_EVENT_SUNSET (today st)
    :: call_log DEBUG "Now: %s Location: %r"
    :: call_now (clock (ticks st))
    :: calls st.
Proof.
  intros Hsun. unfold poll, async_update.
  rewrite !async_update_skipped by exact Hsun. repeat split.
Qed.

(** C2, as amended. The day indices of [afterSunset] and of
    [afterNightfall] are never below that of [plain]; and when the day has
    no havdalah time, or one that is not earlier than sunset while [now],
    the sunset and the havdalah time have the same UTC offset, the day
    index of [afterNightfall] is never above that of [afterSunset]. *)
Theorem day_index_order (st : State) (sunset : datetime) :
  let cm := resolve st sunset in
  HDate.gdate (plain cm) <= HDate.gdate (afterSunset cm) /\
  HDate.gdate (plain cm) <= HDate.gdate (afterNightfall cm) /\
  ((havdalah (today_times st) = None \/
    exists h, havdalah (today_times st) = Some h /\ dt_le sunset h /\
              utcoffset (clock (ticks st)) = utcoffset sunset /\
              utcoffset (clock (ticks st)) = utcoffset h) ->
   HDate.gdate (afterNightfall cm) <= HDate.gdate (afterSunset cm)).
Proof.
  cbn [plain afterSunset afterNightfall resolve].
  unfold JewishCalendarSensor.after_shkia_date,
    JewishCalendarSensor.after_tzais_date.
  split; [|split].
  - destruct (dt_gt _ sunset); cbn; lia.
  - destruct (havdalah _) as [h|]; [destruct (dt_gt _ h)|]; cbn; lia.
  - intros [Hnone | (h & Hh & Hle & Hoff & Hoff')].
    + rewrite Hnone. destruct (dt_gt _ sunset); cbn; lia.
    + rewrite Hh.
      assert (Himp : dt_gt (clock (ticks st)) h = true ->
                     dt_gt (clock (ticks st)) sunset = true).
      { intros Eh.
        destruct (dt_gt_same_offset _ _ Hoff) as [_ Hpast].
        destruct (dt_gt_same_offset _ _ Hoff') as [Hnot_past' _].
        destruct (Z.le_gt_cases (instant (clock (ticks st))) (instant h))
          as [Hcmp | Hcmp].
        - rewrite (Hnot_past' Hcmp) in Eh. discriminate.
        - apply Hpast. unfold dt_lt, dt_le in *. lia. }
      destruct (dt_gt _ h).
      * rewrite Himp by reflexivity. cbn. lia.
      * destruct (dt_gt _ sunset); cbn; lia.
Qed.

(** C3. The values of the info sensors: [date] returns the Hebrew date of
    [afterSunset], with the year, the month name and the day of that same
    date as attributes (the month name is the entry of the month table
    for the date's month); [weekly_portion] returns the portion of the
    Shabbat upcoming from [afterNightfall]; [holiday] returns the holiday
    description of [afterSunset], with its id, type and type id as
    attributes; [omer_count] returns the omer day of [afterSunset];
    [daf_yomi] returns the daily page of [plain]. *)
Theorem info_sensor_values (st : State)
    (d_plain d_sunset d_nightfall : HDate.t) :
  let s := self st in
  let k := key (entity_description s) in
  let r := JewishCalendarSensor.get_state d_plain d_sunset d_nightfall st in
  (k = "date" ->
   forall m,
     getitem MONTHS (Enum.value (month (hdate d_sunset)) - 1) = Some m ->
     fst r = Ok (VStr (hebrew_date d_sunset)) /\
     JewishCalendarSensor.extra_state_attributes (self (snd r)) =
       {[ "hebrew_year" := VInt (year (hdate d_sunset));
          "hebrew_month_name" :=
            VStr (if _hebrew s then htables.hebrew m else htables.english m);
          "hebrew_day" := VInt (day (hdate d_sunset)) ]}) /\
  (k = "weekly_portion" ->
   fst r = Ok (VStr (parasha (upcoming_shabbat d_nightfall)))) /\
  (k = "holiday" ->
   fst r = Ok (VStr (holiday_description d_sunset)) /\
   JewishCalendarSensor.extra_state_attributes (self (snd r)) =
     {[ "id" := VStr (holiday_name d_sunset);
        "type" := VStr (Enum.name (holiday_type d_sunset));
        "type_id" := VInt (Enum.value (holiday_type d_sunset)) ]}) /\
  (k = "omer_count" -> fst r = Ok (VInt (omer_day d_sunset))) /\
  (k = "daf_yomi" -> fst r = Ok (VStr (daf_yomi d_plain))).
Proof.
  intros s k r. subst r k s.
  unfold JewishCalendarSensor.get_state,
    JewishCalendarSensor.extra_state_attributes.
  unfold_methods. cbn.
  split; [|split; [|split; [|split]]]; intros Hk; rewrite Hk; cbn.
  - intros m Hm. rewrite Hm. split; reflexivity.
  - reflexivity.
  - split; reflexivity.
  - reflexivity.
  - reflexivity.
Qed.

(** C4. The request dates of the upcoming sensors: a time sensor with key
    [upcoming_shabbat_candle_lighting] returns the candle-lighting time of
    the table made for the day before the Shabbat upcoming from
    [afterNightfall]; with [upcoming_candle_lighting], that of the table
    for the day before the first day of the upcoming Shabbat or festival;
    with [upcoming_shabbat_havdalah], the havdalah time of the table for
    the civil date of the upcoming Shabbat; with [upcoming_havdalah],
    that of the table for the civil date of the last day of the upcoming
    Shabbat or festival.  One table is constructed, and it is that one. *)
Theorem upcoming_sensor_values (st : State)
    (d_plain d_sunset d_nightfall : HDate.t) :
  let k := key (entity_description (self st)) in
  let r := JewishCalendarTimeSensor.get_state d_plain d_sunset d_nightfall st in
  let table d := zmanim_for (self st) (a_date (HDate.gdate d)) in
  (k = "upcoming_shabbat_candle_lighting" ->
   let z := table (HDate.previous_day (upcoming_shabbat d_nightfall)) in
   r = (Ok (of_optional (candle_lighting z)), called (call_Zmanim z) st)) /\
  (k = "upcoming_candle_lighting" ->
   let z := table (HDate.previous_day
                     (first_day (upcoming_shabbat_or_yom_tov d_nightfall))) in
   r = (Ok (of_optional (candle_lighting z)), called (call_Zmanim z) st)) /\
  (k = "upcoming_shabbat_havdalah" ->
   let z := table (upcoming_shabbat d_nightfall) in
   r = (Ok (of_optional (havdalah z)), called (call_Zmanim z) st)) /\
  (k = "upcoming_havdalah" ->
   let z := table (last_day (upcoming_shabbat_or_yom_tov d_nightfall)) in
   r = (Ok (of_optional (havdalah z)), called (call_Zmanim z) st)).
Proof.
  intros k r table. subst r k table.
  unfold JewishCalendarTimeSensor.get_state. unfold_methods. cbn.
  split; [|split; [|split]]; intros Hk; rewrite Hk; reflexivity.
Qed.

Lemma not_info_key (k : string) :
  k ∉ info_keys ->
  k <> "date" /\ k <> "weekly_portion" /\ k <> "holiday" /\
  k <> "omer_count" /\ k <> "daf_yomi".
Proof. unfold info_keys. rewrite !not_elem_of_cons. tauto. Qed.

Lemma not_upcoming_key (k : string) :
  k ∉ upcoming_keys ->
  k <> "upcoming_shabbat_candle_lighting" /\
  k <> "upcoming_candle_lighting" /\
  k <> "upcoming_shabbat_havdalah" /\ k <> "upcoming_havdalah".
Proof. unfold upcoming_keys. rewrite !not_elem_of_cons. tauto. Qed.

(** A key without a branch in [JewishCalendarSensor.get_state] falls
    through to [return None]. *)
Lemma info_get_state_unmapped (st : State) (a b c : HDate.t) :
  key (entity_description (self st)) ∉ info_keys ->
  JewishCalendarSensor.get_state a b c st = (Ok VNone, st).
Proof.
  intros Hk. apply not_info_key in Hk as (? & ? & ? & ? & ?).
  unfold JewishCalendarSensor.get_state. unfold_methods. cbn.
  rewrite !decide_False by assumption. reflexivity.
Qed.

(** A key without a branch in [JewishCalendarTimeSensor.get_state] is
    looked up in the table made for a fresh clock reading. *)
Lemma time_get_state_daily (st : State) (a b c : HDate.t) :
  key (entity_description (self st)) ∉ upcoming_keys ->
  JewishCalendarTimeSensor.get_state a b c st =
  let now := clock (ticks st) in
  let z := zmanim_for (self st) (a_datetime now) in
  let st' := mk_State (self st) (S (ticks st))
               (call_Zmanim z :: call_now now :: calls st) in
  match zmanim z !! key (entity_description (self st)) with
  | Some t => (Ok (VTime t), st')
  | None => (Raise (KeyError (key (entity_description (self st)))), st')
  end.
Proof.
  intros Hk. apply not_upcoming_key in Hk as (? & ? & ? & ?).
  unfold JewishCalendarTimeSensor.get_state. unfold_methods. cbn.
  rewrite !decide_False by assumption.
  unfold zmanim_for. destruct (zmanim _ !! _); reflexivity.
Qed.

(** C5, as amended. A time sensor whose key is none of the four upcoming
    keys takes a clock reading of its own when it derives its value, after
    the one used for day-boundary resolution; the table it reads is made
    for the civil date of that reading, which is today's table when both
    readings fall on the same civil date; and where the table has an entry
    under the sensor's key, that entry is the value published. *)
Theorem daily_time_sensor_value (st : State) (event_date t : datetime) :
  let k := key (entity_description (self st)) in
  k ∉ upcoming_keys ->
  get_astral_event_date SUN_EVENT_SUNSET (today st) = Some event_date ->
  zmanim (daily_times st) !! k = Some t ->
  Zmanim.date (daily_times st) = dt_date (clock (S (ticks st))) /\
  (dt_date (clock (S (ticks st))) = today st ->
   daily_times st = today_times st) /\
  fst (async_update TimeSensor st) = Ok tt /\
  _attr_native_value (self (poll TimeSensor st)) = VTime t /\
  calls (poll TimeSensor st) =
    call_log DEBUG "New value for %s: %s"
    :: call_Zmanim (daily_times st)
    :: call_now (clock (S (ticks st)))
    :: calls (resolved_state st).
Proof.
  intros k Hk Hsun Ht. subst k.
  split; [reflexivity|]. split.
  { intros Hd. unfold daily_times, today_times, zmanim_for, Zmanim.new.
    cbn [civil_date]. rewrite Hd. reflexivity. }
  pose proof (time_get_state_daily (resolved_state st)
                (plain (resolve st (as_local event_date)))
                (afterSunset (resolve st (as_local event_date)))
                (afterNightfall (resolve st (as_local event_date))) Hk)
    as Hget.
  cbn [self ticks calls resolved_state] in Hget. fold (daily_times st) in Hget.
  rewrite Ht in Hget. cbn zeta in Hget. apply publish_ok in Hget.
  unfold poll, async_update.
  rewrite (async_update_resolved _ _ _ Hsun). unfold get_state.
  rewrite Hget. repeat split.
Qed.

(** C7, as amended. An info sensor whose key has no branch in [get_state]
    gets the value [None]: [get_state] returns it without raising, and an
    update with a sunset for today publishes it, attributes and options as
    they were.  A time sensor whose key is none of the four upcoming keys
    is looked up in the table of the day: where the table has no entry
    under that key, the update raises [KeyError] and the sensor object
    stays as it was. *)
Theorem unmapped_sensor_key (st : State) (event_date : datetime) :
  let k := key (entity_description (self st)) in
  get_astral_event_date SUN_EVENT_SUNSET (today st) = Some event_date ->
  (k ∉ info_keys ->
   (forall a b c, JewishCalendarSensor.get_state a b c st = (Ok VNone, st)) /\
   fst (async_update InfoSensor st) = Ok tt /\
   _attr_native_value (self (poll InfoSensor st)) = VNone /\
   _attrs (self (poll InfoSensor st)) = _attrs (self st) /\
   _attr_options (self (poll InfoSensor st)) = _attr_options (self st)) /\
  (k ∉ upcoming_keys ->
   zmanim (daily_times st) !! k = None ->
   fst (async_update TimeSensor st) = Raise (KeyError k) /\
   self (poll TimeSensor st) = self st).
Proof.
  intros k Hsun. subst k. split.
  - intros Hk. split.
    { intros a b c. apply info_get_state_unmapped. exact Hk. }
    pose proof (info_get_state_unmapped (resolved_state st)
                  (plain (resolve st (as_local event_date)))
                  (afterSunset (resolve st (as_local event_date)))
                  (afterNightfall (resolve st (as_local event_date))) Hk)
      as Hget.
    apply publish_ok in Hget.
    unfold poll, async_update.
    rewrite (async_update_resolved _ _ _ Hsun). unfold get_state.
    rewrite Hget. repeat split.
  - intros Hk Hnone.
    pose proof (time_get_state_daily (resolved_state st)
                  (plain (resolve st (as_local event_date)))
                  (afterSunset (resolve st (as_local event_date)))
                  (afterNightfall (resolve st (as_local event_date))) Hk)
      as Hget.
    cbn [self ticks calls resolved_state] in Hget.
    fold (daily_times st) in Hget.
    rewrite Hnone in Hget. cbn zeta in Hget. apply publish_raise in Hget.
    unfold poll, async_update.
    rewrite (async_update_resolved _ _ _ Hsun). unfold get_state.
    rewrite Hget. split; reflexivity.
Qed.

(** The two branches of [get_state] that assign the options. *)
Lemma get_state_weekly_portion (st : State) (a b c : HDate.t) :
  key (entity_description (self st)) = "weekly_portion" ->
  JewishCalendarSensor.get_state a b c st =
  (Ok (VStr (parasha (upcoming_shabbat c))),
   mk_State
     (with_attr_options (self st)
        (map (fun p => if _hebrew (self st) then htables.hebrew p
                       else htables.english p) PARASHAOT))
     (ticks st) (calls st)).
Proof.
  intros Hk. unfold JewishCalendarSensor.get_state. unfold_methods. cbn.
  rewrite Hk. reflexivity.
Qed.

Lemma get_state_holiday (st : State) (a b c : HDate.t) :
  key (entity_description (self st)) = "holiday" ->
  JewishCalendarSensor.get_state a b c st =
  (Ok (VStr (holiday_description b)),
   mk_State
     (with_attr_options
        (with_attrs (self st)
           {[ "id" := VStr (holiday_name b);
              "type" := VStr (Enum.name (holiday_type b));
              "type_id" := VInt (Enum.value (holiday_type b)) ]})
        (map (fun h =>
                if _hebrew (self st)
                then htables.long (htables.desc_hebrew (htables.description h))
                else htables.desc_english (htables.description h)) HOLIDAYS))
     (ticks st) (calls st)).
Proof.
  intros Hk. unfold JewishCalendarSensor.get_state. unfold_methods. cbn.
  rewrite Hk. reflexivity.
Qed.

(** C9. Enumerated options: whatever the dates handed to [get_state], the
    [weekly_portion] sensor leaves as its options the name, in the
    sensor's language, of every entry of the table of portions, in the
    table's order, and the [holiday] sensor the description of every
    entry of the table of holidays; and so does every update that has a
    sunset for today, whatever the clock reads. *)
Theorem enumerated_options (st : State) :
  let s := self st in
  let k := key (entity_description s) in
  let portions :=
    map (fun p => if _hebrew s then htables.hebrew p else htables.english p)
      PARASHAOT in
  let holidays :=
    map (fun h =>
           if _hebrew s
           then htables.long (htables.desc_hebrew (htables.description h))
           else htables.desc_english (htables.description h)) HOLIDAYS in
  (k = "weekly_portion" ->
   (forall a b c,
      _attr_options (self (snd (JewishCalendarSensor.get_state a b c st)))
      = Some portions) /\
   (forall event_date,
      get_astral_event_date SUN_EVENT_SUNSET (today st) = Some event_date ->
      _attr_options (self (poll InfoSensor st)) = Some portions)) /\
  (k = "holiday" ->
   (forall a b c,
      _attr_options (self (snd (JewishCalendarSensor.get_state a b c st)))
      = Some holidays) /\
   (forall event_date,
      get_astral_event_date SUN_EVENT_SUNSET (today st) = Some event_date ->
      _attr_options (self (poll InfoSensor st)) = Some holidays)).
Proof.
  intros s k portions holidays. subst s k portions holidays.
  split; intros Hk; split.
  - intros a b c. rewrite get_state_weekly_portion by exact Hk. reflexivity.
  - intros event_date Hsun.
    pose proof (get_state_weekly_portion (resolved_state st)
                  (plain (resolve st (as_local event_date)))
                  (afterSunset (resolve st (as_local event_date)))
                  (afterNightfall (resolve st (as_local event_date))) Hk)
      as Hget.
    apply publish_ok in Hget. unfold poll, async_update.
    rewrite (async_update_resolved _ _ _ Hsun). unfold get_state.
    rewrite Hget. reflexivity.
  - intros a b c. rewrite get_state_holiday by exact Hk. reflexivity.
  - intros event_date Hsun.
    pose proof (get_state_holiday (resolved_state st)
                  (plain (resolve st (as_local event_date)))
                  (afterSunset (resolve st (as_local event_date)))
                  (afterNightfall (resolve st (as_local event_date))) Hk)
      as Hget.
    apply publish_ok in Hget. unfold poll, async_update.
    rewrite (async_update_resolved _ _ _ Hsun). unfold get_state.
    rewrite Hget. reflexivity.
Qed.

(** What an update cannot change, whatever happens in it: a property of
    the sensor object that [get_state] and the assignment of the value
    preserve. *)
Lemma async_update_preserves (P : Sensor -> Prop)
    (gs : HDate.t -> HDate.t -> HDate.t -> M Value) (st : State) :
  (forall a b c st0, P (self st0) -> P (self (snd (gs a b c st0)))) ->
  (forall s0 v, P s0 -> P (with_attr_native_value s0 v)) ->
  P (self st) ->
  P (self (snd (JewishCalendarSensor.async_update gs st))).
Proof.
  intros Hgs Hval HP.
  destruct (get_astral_event_date SUN_EVENT_SUNSET (today st))
    as [event_date|] eqn:Hsun.
  - rewrite (async_update_resolved _ _ _ Hsun).
    set (a := plain _). set (b := afterSunset _). set (c := afterNightfall _).
    specialize (Hgs a b c (resolved_state st) HP).
    destruct (gs a b c (resolved_state st)) as [[v|e] st'] eqn:Hget.
    + rewrite (publish_ok _ _ _ _ Hget). cbn. apply Hval. exact Hgs.
    + rewrite (publish_raise _ _ _ _ Hget). exact Hgs.
  - rewrite (async_update_skipped _ _ Hsun). exact HP.
Qed.

(** The sensors that keep their description and their empty attributes:
    the time sensors, and the info sensors other than [date] and
    [holiday]. *)
Lemma get_state_plain_attrs (c : SensorClass) (d : SensorEntityDescription)
    (a b e : HDate.t) (st : State) :
  c = TimeSensor \/ (key d <> "date" /\ key d <> "holiday") ->
  entity_description (self st) = d /\ _attrs (self st) = ∅ ->
  entity_description (self (snd (get_state c a b e st))) = d /\
  _attrs (self (snd (get_state c a b e st))) = ∅.
Proof.
  intros Hc [Hd Ha].
  destruct c; cbn [get_state].
  - destruct Hc as [Hc | [Hdate Hholiday]]; [discriminate|].
    unfold JewishCalendarSensor.get_state. unfold_methods. cbn.
    rewrite Hd. rewrite (decide_False (P := key d = "date")) by assumption.
    rewrite (decide_False (P := key d = "holiday")) by assumption.
    repeat case_decide; cbn; auto.
  - unfold JewishCalendarTimeSensor.get_state. unfold_methods. cbn.
    repeat case_decide; cbn; auto.
    destruct (zmanim _ !! _); cbn; auto.
Qed.

Lemma poll_n_plain_attrs (c : SensorClass) (d : SensorEntityDescription)
    (n : nat) (st : State) :
  c = TimeSensor \/ (key d <> "date" /\ key d <> "holiday") ->
  entity_description (self st) = d /\ _attrs (self st) = ∅ ->
  entity_description (self (poll_n c n st)) = d /\
  _attrs (self (poll_n c n st)) = ∅.
Proof.
  intros Hc. revert st.
  induction n as [|n IH]; intros st HP; cbn [poll_n]; [exact HP|].
  apply IH. unfold poll, async_update.
  apply (async_update_preserves
           (fun s => entity_description s = d /\ _attrs s = ∅)).
  - intros a b e st0. apply get_state_plain_attrs. exact Hc.
  - intros s0 v HP0. exact HP0.
  - exact HP.
Qed.

(** C10. Attributes of the other sensors: a time sensor, and an info
    sensor whose key is neither [date] nor [holiday], has an empty
    attributes mapping after any number of updates, whatever the clock
    and the sunset lookup give and however each update ends; so a sensor
    that ever shows a non-empty mapping is the [date] or the [holiday]
    info sensor. *)
Theorem attributes_stay_empty (c : SensorClass) (entry_id : string)
    (data : EntryData) (description : SensorEntityDescription) (n : nat) :
  c = TimeSensor \/
  (key description <> "date" /\ key description <> "holiday") ->
  JewishCalendarSensor.extra_state_attributes
    (self (poll_n c n
             (initial_state
                (JewishCalendarSensor.__init__ entry_id data description))))
  = ∅.
Proof.
  intros Hc. unfold JewishCalendarSensor.extra_state_attributes.
  apply (poll_n_plain_attrs c description n _ Hc). split; reflexivity.
Qed.
End Properties.

(** ** The catalog *)

(** [async_setup_entry] makes one object per descriptor, of the class of
    the descriptor's list. *)
Lemma async_setup_entry_catalog `{Hdate} `{Host}
    (entry_id : string) (entry : EntryData) :
  map (fun x => (fst x, entity_description (snd x)))
    (async_setup_entry entry_id entry)
  = (map (fun d => (InfoSensor, d)) INFO_SENSORS
     ++ map (fun d => (TimeSensor, d)) TIME_SENSORS)%list.
Proof. reflexivity. Qed.

(** C8, as stated, fails: the catalog does not have 21 descriptors, 16 of
    them time sensors. *)
Lemma catalog_counts_counterexample :
  ~ (length catalog = 21%nat /\ NoDup (map key catalog) /\
     length INFO_SENSORS = 5%nat /\ length TIME_SENSORS = 16%nat).
Proof. intros (Hlen & _). vm_compute in Hlen. discriminate. Qed.

(** C8, as amended. The catalog has exactly 23 descriptors with pairwise
    distinct keys: 5 info sensors and 18 time sensors. *)
Theorem catalog_counts :
  length catalog = 23%nat /\ NoDup (map key catalog) /\
  length INFO_SENSORS = 5%nat /\ length TIME_SENSORS = 18%nat.
Proof.
  split; [reflexivity|]. split; [|split; reflexivity].
  apply (bool_decide_unpack _). vm_compute. reflexivity.
Qed.

(** ** The sensors at work *)

Section Scenarios.
#[local] Existing Instance Sample.calendar.

(** The date sensor on a Monday: at noon it shows the Hebrew date of the
    civil day, at 20:00, after sunset, that of the next day. *)
Example date_before_sunset :
  _attr_native_value
    (self (@poll _ Sample.noon InfoSensor (Sample.start "date")))
  = VStr "5 Tishrei 5784".
Proof. by_computation. Qed.

Example date_after_sunset :
  _attr_native_value
    (self (@poll _ Sample.evening InfoSensor (Sample.start "date")))
  = VStr "6 Tishrei 5784".
Proof. by_computation. Qed.

(** A day without havdalah: at 20:00 [afterNightfall] is still the civil
    day, while [afterSunset] has moved on. *)
Example monday_evening :
  @resolve _ Sample.evening (Sample.start "date")
    (@as_local Sample.evening (Sample.sunset_of 4))
  = {| plain := HDate.mk 4 false false;
       afterSunset := HDate.mk 5 false false;
       afterNightfall := HDate.mk 4 false false |}.
Proof. by_computation. Qed.


(** That night as the code sees it: both datetimes are in the configured
    zone, and 01:10 is not past 01:40. *)
Example fall_back_night :
  tzinfo (@clock Sample.fall_back 0)
  = tzinfo (@as_local Sample.fall_back Sample.fall_back_sunset) /\
  wall_clock (@clock Sample.fall_back 0)
  < wall_clock (@as_local Sample.fall_back Sample.fall_back_sunset) /\
  instant (@as_local Sample.fall_back Sample.fall_back_sunset)
  < instant (@clock Sample.fall_back 0) /\
  dt_gt (@clock Sample.fall_back 0)
    (@as_local Sample.fall_back Sample.fall_back_sunset) = false.
Proof. repeat split; by_computation. Qed.


(** C2, as stated, fails on a Saturday at 18:30: sunset has moved
    [afterSunset] to Sunday, while [afterNightfall] waits for havdalah
    and is still Saturday. *)
Lemma day_index_order_counterexample :
  ~ (HDate.gdate
       (afterNightfall (@resolve _ Sample.twilight (Sample.start "date")
                          (@as_local Sample.twilight (Sample.sunset_of 2))))
     >= HDate.gdate
          (afterSunset (@resolve _ Sample.twilight (Sample.start "date")
                          (@as_local Sample.twilight (Sample.sunset_of 2))))
     /\
     HDate.gdate
       (afterSunset (@resolve _ Sample.twilight (Sample.start "date")
                       (@as_local Sample.twilight (Sample.sunset_of 2))))
     >= HDate.gdate
          (plain (@resolve _ Sample.twilight (Sample.start "date")
                    (@as_local Sample.twilight (Sample.sunset_of 2))))).
Proof. intros [Hge _]. vm_compute in Hge. apply Hge. reflexivity. Qed.

(** The same evening, in the order that does hold. *)
Lemma day_index_order_witness :
  (exists h, havdalah (@today_times Sample.twilight (Sample.start "date"))
             = Some h /\
             dt_le (@as_local Sample.twilight (Sample.sunset_of 2)) h /\
             utcoffset (@clock Sample.twilight
                          (ticks (Sample.start "date")))
             = utcoffset (@as_local Sample.twilight (Sample.sunset_of 2)) /\
             utcoffset (@clock Sample.twilight
                          (ticks (Sample.start "date")))
             = utcoffset h) /\
  HDate.gdate
    (afterNightfall (@resolve _ Sample.twilight (Sample.start "date")
                       (@as_local Sample.twilight (Sample.sunset_of 2))))
  <= HDate.gdate
       (afterSunset (@resolve _ Sample.twilight (Sample.start "date")
                       (@as_local Sample.twilight (Sample.sunset_of 2)))).
Proof.
  assert (Hh : exists h,
             havdalah (@today_times Sample.twilight (Sample.start "date"))
             = Some h /\
             dt_le (@as_local Sample.twilight (Sample.sunset_of 2)) h /\
             utcoffset (@clock Sample.twilight
                          (ticks (Sample.start "date")))
             = utcoffset (@as_local Sample.twilight (Sample.sunset_of 2)) /\
             utcoffset (@clock Sample.twilight
                          (ticks (Sample.start "date")))
             = utcoffset h).
  { exists (Sample.at_ 2 19 0).
    split; [reflexivity|]. split; [by_computation|]. split; reflexivity. }
  split; [exact Hh|].
  apply (@day_index_order _ Sample.twilight (Sample.start "date")
           (@as_local Sample.twilight (Sample.sunset_of 2))).
  right. exact Hh.
Defined.

(** The five info sensors on the dates of a Saturday at 18:30. *)
Lemma info_sensor_values_witness :
  (getitem MONTHS (Enum.value (month (hdate Sample.sunday)) - 1)
   = Some (htables.mk_LANG "tishrei" "Tishrei") /\
   fst (@JewishCalendarSensor.get_state _ Sample.saturday Sample.sunday Sample.saturday (Sample.start "date"))
   = Ok (VStr "4 Tishrei 5784") /\
   _attrs (self (snd (@JewishCalendarSensor.get_state _ Sample.saturday Sample.sunday Sample.saturday
                        (Sample.start "date"))))
   = {[ "hebrew_year" := VInt 5784;
        "hebrew_month_name" := VStr "Tishrei";
        "hebrew_day" := VInt 4 ]}) /\
  fst (@JewishCalendarSensor.get_state _ Sample.saturday Sample.sunday Sample.saturday
         (Sample.start "weekly_portion"))
  = Ok (VStr "Week 0") /\
  fst (@JewishCalendarSensor.get_state _ Sample.saturday Sample.sunday Sample.saturday (Sample.start "holiday"))
  = Ok (VStr "") /\
  fst (@JewishCalendarSensor.get_state _ Sample.saturday Sample.sunday Sample.saturday
         (Sample.start "omer_count"))
  = Ok (VInt 0) /\
  fst (@JewishCalendarSensor.get_state _ Sample.saturday Sample.sunday Sample.saturday (Sample.start "daf_yomi"))
  = Ok (VStr "Kiddushin 4").
Proof.
  destruct (@info_sensor_values _ (Sample.start "date")
              Sample.saturday Sample.sunday Sample.saturday)
    as (Hdate & _).
  destruct (@info_sensor_values _ (Sample.start "weekly_portion")
              Sample.saturday Sample.sunday Sample.saturday)
    as (_ & Hportion & _).
  destruct (@info_sensor_values _ (Sample.start "holiday")
              Sample.saturday Sample.sunday Sample.saturday)
    as (_ & _ & Hholiday & _).
  destruct (@info_sensor_values _ (Sample.start "omer_count")
              Sample.saturday Sample.sunday Sample.saturday)
    as (_ & _ & _ & Homer & _).
  destruct (@info_sensor_values _ (Sample.start "daf_yomi")
              Sample.saturday Sample.sunday Sample.saturday)
    as (_ & _ & _ & _ & Hdaf).
  split; [|split; [|split; [|split]]].
  - split; [reflexivity|].
    destruct (Hdate eq_refl (htables.mk_LANG "tishrei" "Tishrei") eq_refl)
      as [Hv Ha].
    split; [exact Hv | exact Ha].
  - exact (Hportion eq_refl).
  - exact (proj1 (Hholiday eq_refl)).
  - exact (Homer eq_refl).
  - exact (Hdaf eq_refl).
Defined.

(** The four upcoming sensors on Thursday, day 7: the Shabbat is day 9,
    candles are lit on day 8. *)
Lemma upcoming_sensor_values_witness :
  fst (@JewishCalendarTimeSensor.get_state _ Sample.noon Sample.thursday Sample.thursday
         Sample.thursday
         (Sample.start "upcoming_shabbat_candle_lighting"))
  = Ok (VTime (Sample.at_ 8 17 40)) /\
  fst (@JewishCalendarTimeSensor.get_state _ Sample.noon Sample.thursday Sample.thursday
         Sample.thursday
         (Sample.start "upcoming_candle_lighting"))
  = Ok (VTime (Sample.at_ 8 17 40)) /\
  fst (@JewishCalendarTimeSensor.get_state _ Sample.noon Sample.thursday Sample.thursday
         Sample.thursday
         (Sample.start "upcoming_shabbat_havdalah"))
  = Ok (VTime (Sample.at_ 9 19 0)) /\
  fst (@JewishCalendarTimeSensor.get_state _ Sample.noon Sample.thursday Sample.thursday
         Sample.thursday
         (Sample.start "upcoming_havdalah"))
  = Ok (VTime (Sample.at_ 9 19 0)).
Proof.
  destruct (@upcoming_sensor_values _ Sample.noon
              (Sample.start "upcoming_shabbat_candle_lighting")
              Sample.thursday Sample.thursday Sample.thursday)
    as (H1 & _).
  destruct (@upcoming_sensor_values _ Sample.noon
              (Sample.start "upcoming_candle_lighting")
              Sample.thursday Sample.thursday Sample.thursday)
    as (_ & H2 & _).
  destruct (@upcoming_sensor_values _ Sample.noon
              (Sample.start "upcoming_shabbat_havdalah")
              Sample.thursday Sample.thursday Sample.thursday)
    as (_ & _ & H3 & _).
  destruct (@upcoming_sensor_values _ Sample.noon
              (Sample.start "upcoming_havdalah")
              Sample.thursday Sample.thursday Sample.thursday)
    as (_ & _ & _ & H4).
  split; [|split; [|split]].
  - rewrite (H1 eq_refl). reflexivity.
  - rewrite (H2 eq_refl). reflexivity.
  - rewrite (H3 eq_refl). reflexivity.
  - rewrite (H4 eq_refl). reflexivity.
Defined.

(** C5, as stated, fails when midnight passes between the two clock
    readings of an update: the sunrise sensor that starts its update on
    Monday at 23:59 publishes the sunrise of Tuesday, not the entry of the
    table of Monday, the civil date of the reading used for day-boundary
    resolution. *)
Lemma daily_time_sensor_value_counterexample :
  ~ (exists t,
       (zmanim (@today_times Sample.midnight (Sample.start "sunrise"))
          !! "sunrise") = Some t /\
       _attr_native_value
         (self (@poll _ Sample.midnight TimeSensor (Sample.start "sunrise")))
       = VTime t).
Proof.
  intros (t & Ht & Hv). vm_compute in Ht. vm_compute in Hv.
  injection Ht as <-. discriminate Hv.
Qed.

(** The same update: the value is the entry of the table of Tuesday. *)
Lemma daily_time_sensor_value_witness :
  ("sunrise" ∉ upcoming_keys) /\
  @get_astral_event_date Sample.midnight SUN_EVENT_SUNSET
    (@today Sample.midnight (Sample.start "sunrise"))
  = Some (Sample.sunset_of 4) /\
  (zmanim (@daily_times Sample.midnight (Sample.start "sunrise")) !! "sunrise")
  = Some (Sample.at_ 5 6 0) /\
  Zmanim.date (@daily_times Sample.midnight (Sample.start "sunrise")) = 5 /\
  _attr_native_value
    (self (@poll _ Sample.midnight TimeSensor (Sample.start "sunrise")))
  = VTime (Sample.at_ 5 6 0).
Proof.
  assert (Hk : key (entity_description (self (Sample.start "sunrise")))
               ∉ upcoming_keys) by by_decide.
  assert (Ht : zmanim (@daily_times Sample.midnight (Sample.start "sunrise"))
               !! key (entity_description (self (Sample.start "sunrise")))
               = Some (Sample.at_ 5 6 0)) by by_computation.
  destruct (@daily_time_sensor_value _ Sample.midnight
              (Sample.start "sunrise") (Sample.sunset_of 4)
              (Sample.at_ 5 6 0) Hk eq_refl Ht)
    as (Hd & _ & _ & Hv & _).
  split; [exact Hk|]. split; [reflexivity|]. split; [exact Ht|].
  split; [rewrite Hd; reflexivity | exact Hv].
Defined.

(** Where the sun does not set, the update of a sensor changes nothing
    of the sensor. *)
Lemma no_sunset_data_skips_cycle_witness :
  @get_astral_event_date Sample.polar SUN_EVENT_SUNSET
    (@today Sample.polar (Sample.start "date")) = None /\
  self (@poll _ Sample.polar InfoSensor (Sample.start "date"))
  = Sample.sensor "date" /\
  self (@poll _ Sample.polar TimeSensor (Sample.start "sunrise"))
  = Sample.sensor "sunrise".
Proof.
  split; [reflexivity|]. split.
  - apply (@no_sunset_data_skips_cycle _ Sample.polar
             (@JewishCalendarSensor.get_state _) InfoSensor
             (Sample.start "date") eq_refl).
  - apply (@no_sunset_data_skips_cycle _ Sample.polar
             (@JewishCalendarSensor.get_state _) TimeSensor
             (Sample.start "sunrise") eq_refl).
Defined.

(** C7, as stated, fails for a time sensor: with a key that no branch
    and no table knows, its update raises instead of giving [None]. *)
Lemma unmapped_sensor_key_counterexample :
  ~ (fst (@async_update _ Sample.noon TimeSensor (Sample.start "bogus"))
     = Ok tt /\
     _attr_native_value
       (self (@poll _ Sample.noon TimeSensor (Sample.start "bogus")))
     = VNone).
Proof. intros [Hok _]. vm_compute in Hok. discriminate Hok. Qed.

(** The same key on an info sensor, and on the time sensor. *)
Lemma unmapped_sensor_key_witness :
  ("bogus" ∉ info_keys) /\ ("bogus" ∉ upcoming_keys) /\
  @get_astral_event_date Sample.noon SUN_EVENT_SUNSET
    (@today Sample.noon (Sample.start "bogus"))
  = Some (Sample.sunset_of 4) /\
  (zmanim (@daily_times Sample.noon (Sample.start "bogus")) !! "bogus")
  = None /\
  fst (@async_update _ Sample.noon InfoSensor (Sample.start "bogus")) = Ok tt /\
  _attr_native_value
    (self (@poll _ Sample.noon InfoSensor (Sample.start "bogus"))) = VNone /\
  fst (@async_update _ Sample.noon TimeSensor (Sample.start "bogus"))
  = Raise (KeyError "bogus").
Proof.
  assert (Hi : key (entity_description (self (Sample.start "bogus")))
               ∉ info_keys) by by_decide.
  assert (Hu : key (entity_description (self (Sample.start "bogus")))
               ∉ upcoming_keys) by by_decide.
  destruct (@unmapped_sensor_key _ Sample.noon (Sample.start "bogus")
              (Sample.sunset_of 4) eq_refl) as [Hinfo Htime].
  destruct (Hinfo Hi) as (_ & Hok & Hv & _).
  assert (Hnone : zmanim (@daily_times Sample.noon (Sample.start "bogus"))
                  !! key (entity_description (self (Sample.start "bogus")))
                  = None) by by_computation.
  destruct (Htime Hu Hnone) as (Hraise & _).
  split; [exact Hi|]. split; [exact Hu|]. split; [reflexivity|].
  split; [exact Hnone|]. split; [exact Hok|]. split; [exact Hv|exact Hraise].
Defined.

(** The options of the two enumerated sensors after an update. *)
Lemma enumerated_options_witness :
  @get_astral_event_date Sample.noon SUN_EVENT_SUNSET
    (@today Sample.noon (Sample.start "weekly_portion"))
  = Some (Sample.sunset_of 4) /\
  _attr_options
    (self (@poll _ Sample.noon InfoSensor (Sample.start "weekly_portion")))
  = Some ["Bereshit"; "Noach"] /\
  _attr_options
    (self (@poll _ Sample.noon InfoSensor (Sample.start "holiday")))
  = Some ["Rosh Hashana I"].
Proof.
  destruct (@enumerated_options _ Sample.noon (Sample.start "weekly_portion"))
    as [Hportion _].
  destruct (@enumerated_options _ Sample.noon (Sample.start "holiday"))
    as [_ Hholiday].
  split; [reflexivity|]. split.
  - exact (proj2 (Hportion eq_refl) (Sample.sunset_of 4) eq_refl).
  - exact (proj2 (Hholiday eq_refl) (Sample.sunset_of 4) eq_refl).
Defined.

(** Three updates of a time sensor and of the omer sensor. *)
Lemma attributes_stay_empty_witness :
  JewishCalendarSensor.extra_state_attributes
    (self (@poll_n _ Sample.midnight TimeSensor 3
             (initial_state
                (@JewishCalendarSensor.__init__ Sample.midnight "entry"
                   Sample.entry
                   (mk_description "sunrise" "Hanetz Hachama"
                      "mdi:calendar-clock" None None)))))
  = ∅ /\
  JewishCalendarSensor.extra_state_attributes
    (self (@poll_n _ Sample.midnight InfoSensor 3
             (initial_state
                (@JewishCalendarSensor.__init__ Sample.midnight "entry"
                   Sample.entry
                   (mk_description "omer_count" "Day of the Omer"
                      "mdi:counter" None None)))))
  = ∅.
Proof.
  split.
  - apply (@attributes_stay_empty _ Sample.midnight TimeSensor).
    left. reflexivity.
  - apply (@attributes_stay_empty _ Sample.midnight InfoSensor).
    right. split; by_computation.
Defined.
End Scenarios.

(** * Further properties of the updates *)

Section Updates.
Context `{Hdate} `{Host}.

(** The three ways an update can go. *)
Lemma async_update_cases (c : SensorClass) (st : State) :
  (get_astral_event_date SUN_EVENT_SUNSET (today st) = None /\
   async_update c st = (Ok tt, skipped_state st)) \/
  (exists event_date v st',
     get_astral_event_date SUN_EVENT_SUNSET (today st) = Some event_date /\
     get_state c (plain (resolve st (as_local event_date)))
       (afterSunset (resolve st (as_local event_date)))
       (afterNightfall (resolve st (as_local event_date)))
       (resolved_state st) = (Ok v, st') /\
     async_update c st =
     (Ok tt,
      mk_State (with_attr_native_value (self st') v) (ticks st')
        (call_log DEBUG "New value for %s: %s" :: calls st'))) \/
  (exists event_date e st',
     get_astral_event_date SUN_EVENT_SUNSET (today st) = Some event_date /\
     get_state c (plain (resolve st (as_local event_date)))
       (afterSunset (resolve st (as_local event_date)))
       (afterNightfall (resolve st (as_local event_date)))
       (resolved_state st) = (Raise e, st') /\
     async_update c st = (Raise e, st')).
Proof.
  unfold async_update.
  destruct (get_astral_event_date SUN_EVENT_SUNSET (today st))
    as [event_date|] eqn:Hsun.
  - right. rewrite (async_update_resolved _ _ _ Hsun).
    destruct (get_state c (plain (resolve st (as_local event_date)))
                (afterSunset (resolve st (as_local event_date)))
                (afterNightfall (resolve st (as_local event_date)))
                (resolved_state st)) as [[v|e] st'] eqn:Hget.
    + left. exists event_date, v, st'.
      rewrite (publish_ok _ _ _ _ Hget). auto.
    + right. exists event_date, e, st'.
      rewrite (publish_raise _ _ _ _ Hget). auto.
  - left. rewrite (async_update_skipped _ _ Hsun). auto.
Qed.

(** [get_state] of an info sensor takes no clock reading and calls no
    collaborator, and leaves the configuration alone. *)
Lemma info_get_state_frame (st : State) (a b c : HDate.t) :
  ticks (snd (JewishCalendarSensor.get_state a b c st)) = ticks st /\
  calls (snd (JewishCalendarSensor.get_state a b c st)) = calls st /\
  same_configuration (self st)
    (self (snd (JewishCalendarSensor.get_state a b c st))).
Proof.
  unfold JewishCalendarSensor.get_state, same_configuration.
  unfold_methods. cbn.
  repeat case_decide; cbn; try (destruct (getitem _ _); cbn);
    repeat split; reflexivity.
Qed.

(** [get_state] of a time sensor assigns nothing to the object. *)
Lemma time_get_state_self (st : State) (a b c : HDate.t) :
  self (snd (JewishCalendarTimeSensor.get_state a b c st)) = self st.
Proof.
  unfold JewishCalendarTimeSensor.get_state. unfold_methods. cbn.
  repeat case_decide; cbn; try (destruct (zmanim _ !! _); cbn); reflexivity.
Qed.

Lemma same_configuration_refl (s : Sensor) : same_configuration s s.
Proof. unfold same_configuration. repeat split; reflexivity. Qed.

Lemma get_state_configuration (c : SensorClass) (st : State)
    (a b d : HDate.t) :
  same_configuration (self st) (self (snd (get_state c a b d st))).
Proof.
  destruct c; cbn [get_state].
  - apply info_get_state_frame.
  - rewrite time_get_state_self. apply same_configuration_refl.
Qed.

(** How [get_state] can raise: the [date] branch on the subscript of the
    table of months, the daily branch of a time sensor on the subscript of
    the table of times; in both nothing has been assigned yet. *)
Lemma get_state_raise (c : SensorClass) (st st' : State) (a b d : HDate.t)
    (e : Exn) :
  get_state c a b d st = (Raise e, st') ->
  self st' = self st /\
  ((c = InfoSensor /\ key (entity_description (self st)) = "date" /\
    e = IndexError /\
    getitem MONTHS (Enum.value (month (hdate b)) - 1) = None) \/
   (c = TimeSensor /\ (key (entity_description (self st)) ∉ upcoming_keys) /\
    e = KeyError (key (entity_description (self st))))).
Proof.
  destruct c; cbn [get_state].
  - unfold JewishCalendarSensor.get_state. unfold_methods. cbn.
    repeat case_decide; cbn; try discriminate.
    destruct (getitem _ _) eqn:Hm; cbn; [discriminate|].
    intros [= <- <-]. split; [reflexivity|]. left. auto.
  - unfold JewishCalendarTimeSensor.get_state. unfold_methods. cbn.
    repeat case_decide; cbn; try discriminate.
    destruct (zmanim _ !! _); cbn; [discriminate|].
    intros [= <- <-]. split; [reflexivity|]. right.
    split; [reflexivity|]. split; [|reflexivity].
    unfold upcoming_keys. rewrite !not_elem_of_cons.
    repeat split; try assumption. apply not_elem_of_nil.
Qed.

(** X1. An update never touches the configuration of the sensor: the
    description, the name, the unique id, the location, the language, the
    two offsets and the diaspora flag are after any number of updates what
    [__init__] made them, for every class and key and however the updates
    end. *)
Theorem updates_keep_configuration (c : SensorClass) (n : nat) (st : State) :
  same_configuration (self st) (self (poll_n c n st)).
Proof.
  revert st. induction n as [|n IH]; intros st; cbn [poll_n].
  - apply same_configuration_refl.
  - assert (Hstep : same_configuration (self st) (self (poll c st))).
    { unfold poll, async_update.
      apply (async_update_preserves (same_configuration (self st))).
      - intros a b d st0 Hold.
        pose proof (get_state_configuration c st0 a b d) as Hnew.
        unfold same_configuration in *.
        destruct Hold as (?&?&?&?&?&?&?&?), Hnew as (?&?&?&?&?&?&?&?).
        repeat split; congruence.
      - intros s0 v Hold. exact Hold.
      - apply same_configuration_refl. }
    specialize (IH (poll c st)).
    unfold same_configuration in *.
    destruct Hstep as (?&?&?&?&?&?&?&?), IH as (?&?&?&?&?&?&?&?).
    repeat split; congruence.
Qed.

(** X4. The [date] sensor and the table of months: with a sunset for
    today, the update of the [date] info sensor raises [IndexError] exactly
    when the table of months has no entry at the index of the month of
    [afterSunset], minus one; it publishes nothing then. *)
Theorem date_update_fails_iff (st : State) (event_date : datetime) :
  key (entity_description (self st)) = "date" ->
  get_astral_event_date SUN_EVENT_SUNSET (today st) = Some event_date ->
  (fst (async_update InfoSensor st) = Raise IndexError <->
   getitem MONTHS
     (Enum.value
        (month (hdate (afterSunset (resolve st (as_local event_date))))) - 1)
   = None) /\
  (fst (async_update InfoSensor st) = Raise IndexError ->
   self (poll InfoSensor st) = self st).
Proof.
  intros Hk Hsun. unfold poll, async_update.
  rewrite (async_update_resolved _ _ _ Hsun). cbn [get_state].
  set (b := afterSunset _). set (a := plain _). set (d := afterNightfall _).
  unfold publish, JewishCalendarSensor.get_state. unfold_methods. cbn.
  rewrite Hk. cbn.
  destruct (getitem MONTHS _) as [m|]; cbn.
  - split; [split; discriminate | discriminate].
  - split; [split; reflexivity | reflexivity].
Qed.

(** The branches of [get_state] that leave the options alone. *)
Lemma get_state_options (c : SensorClass) (st : State) (a b d : HDate.t) :
  c = TimeSensor \/
  (key (entity_description (self st)) <> "weekly_portion" /\
   key (entity_description (self st)) <> "holiday") ->
  _attr_options (self (snd (get_state c a b d st))) = _attr_options (self st).
Proof.
  intros Hc. destruct c; cbn [get_state].
  - destruct Hc as [Hc | [Hportion Hholiday]]; [discriminate|].
    unfold JewishCalendarSensor.get_state. unfold_methods. cbn.
    rewrite (decide_False (P := _ = "weekly_portion")) by assumption.
    rewrite (decide_False (P := _ = "holiday")) by assumption.
    repeat case_decide; cbn; try (destruct (getitem _ _); cbn); reflexivity.
  - rewrite time_get_state_self. reflexivity.
Qed.

(** X5. Options of the other sensors: a time sensor, and an info sensor
    whose key is neither [weekly_portion] nor [holiday], has no options
    list after any number of updates. *)
Theorem options_stay_unset (c : SensorClass) (entry_id : string)
    (data : EntryData) (description : SensorEntityDescription) (n : nat) :
  c = TimeSensor \/
  (key description <> "weekly_portion" /\ key description <> "holiday") ->
  _attr_options
    (self (poll_n c n
             (initial_state
                (JewishCalendarSensor.__init__ entry_id data description))))
  = None.
Proof.
  intros Hc.
  assert (Hinv : forall st,
             entity_description (self st) = description /\
             _attr_options (self st) = None ->
             entity_description (self (poll_n c n st)) = description /\
             _attr_options (self (poll_n c n st)) = None).
  { induction n as [|n IH]; intros st HP; cbn [poll_n]; [exact HP|].
    apply IH. unfold poll, async_update.
    apply (async_update_preserves
             (fun s => entity_description s = description /\
                       _attr_options s = None)).
    - intros a b d st0 [Hd Ho]. split.
      + destruct (get_state_configuration c st0 a b d) as [Hed _]. congruence.
      + rewrite get_state_options; [exact Ho|]. rewrite Hd. exact Hc.
    - intros s0 v HP0. exact HP0.
    - exact HP. }
  apply Hinv. split; reflexivity.
Qed.

(** X6. No info sensor of the catalog is unmapped: for each of the five
    descriptors of [INFO_SENSORS], [get_state] takes a branch of its own
    and never falls through to [return None]. *)
Theorem catalog_info_sensors_are_mapped (st : State) (a b c : HDate.t) :
  entity_description (self st) ∈ INFO_SENSORS ->
  fst (JewishCalendarSensor.get_state a b c st) <> Ok VNone.
Proof.
  intros Hd. unfold INFO_SENSORS in Hd.
  unfold JewishCalendarSensor.get_state. unfold_methods. cbn.
  repeat (apply elem_of_cons in Hd as [Hd | Hd];
          [rewrite Hd; cbn; try (destruct (getitem _ _); cbn); discriminate|]).
  apply elem_of_nil in Hd. contradiction.
Qed.

(** X7. Deriving twice: [get_state] of an info sensor, run again on the
    same dates in the state it has left, returns the same value (or raises
    the same exception) and leaves that state as it is. *)
Theorem info_get_state_idempotent (st : State) (a b c : HDate.t) :
  JewishCalendarSensor.get_state a b c
    (snd (JewishCalendarSensor.get_state a b c st))
  = JewishCalendarSensor.get_state a b c st.
Proof.
  unfold JewishCalendarSensor.get_state. unfold_methods. cbn.
  destruct (getitem MONTHS _) as [m|] eqn:Hm; cbn;
    repeat (split_key st); try rewrite Hm; reflexivity.
Qed.
(** What [get_state] of a time sensor costs: one table, and one clock
    reading unless the key is an upcoming one. *)
Lemma time_get_state_cost (st : State) (a b c : HDate.t) :
  tables_made (calls (snd (JewishCalendarTimeSensor.get_state a b c st)))
  = S (tables_made (calls st)) /\
  (key (entity_description (self st)) ∈ upcoming_keys ->
   ticks (snd (JewishCalendarTimeSensor.get_state a b c st)) = ticks st) /\
  (key (entity_description (self st)) ∉ upcoming_keys ->
   ticks (snd (JewishCalendarTimeSensor.get_state a b c st)) = S (ticks st)).
Proof.
  split; [|split].
  - unfold JewishCalendarTimeSensor.get_state. unfold_methods. cbn.
    repeat (split_key st); try (destruct (zmanim _ !! _); cbn); reflexivity.
  - intros Hin. unfold upcoming_keys in Hin.
    unfold JewishCalendarTimeSensor.get_state. unfold_methods. cbn.
    repeat (apply elem_of_cons in Hin as [Hin | Hin];
            [rewrite Hin; reflexivity|]).
    apply elem_of_nil in Hin. contradiction.
  - intros Hout. rewrite time_get_state_daily by exact Hout. cbn zeta.
    destruct (zmanim _ !! _); reflexivity.
Qed.

(** X8. What an update costs.  Without a sunset for today it takes one
    clock reading and constructs no table.  With one, an info sensor takes
    one clock reading and constructs one table; a time sensor constructs
    two tables, the one for the havdalah of today and the one it reads,
    and takes one clock reading when its key is an upcoming one and two
    otherwise.  This holds however the update ends. *)
Theorem update_cost (c : SensorClass) (st : State) :
  match get_astral_event_date SUN_EVENT_SUNSET (today st) with
  | None =>
      ticks (poll c st) = S (ticks st) /\
      tables_made (calls (poll c st)) = tables_made (calls st)
  | Some _ =>
      match c with
      | InfoSensor =>
          ticks (poll c st) = S (ticks st) /\
          tables_made (calls (poll c st)) = S (tables_made (calls st))
      | TimeSensor =>
          tables_made (calls (poll c st)) = S (S (tables_made (calls st))) /\
          (key (entity_description (self st)) ∈ upcoming_keys ->
           ticks (poll c st) = S (ticks st)) /\
          (key (entity_description (self st)) ∉ upcoming_keys ->
           ticks (poll c st) = S (S (ticks st)))
      end
  end.
Proof.
  unfold poll.
  destruct (async_update_cases c st)
    as [[Hsun Hrun] | [(ev & v & st' & Hsun & Hget & Hrun)
                      | (ev & e' & st' & Hsun & Hget & Hrun)]];
    rewrite Hsun, Hrun; cbn [snd ticks calls skipped_state tables_made];
    [split; reflexivity | |].
  - destruct c; cbn [get_state] in Hget.
    + destruct (info_get_state_frame (resolved_state st)
                  (plain (resolve st (as_local ev)))
                  (afterSunset (resolve st (as_local ev)))
                  (afterNightfall (resolve st (as_local ev))))
        as (Ht & Hc & _).
      rewrite Hget in Ht, Hc. cbn [snd] in Ht, Hc. rewrite Ht, Hc.
      split; reflexivity.
    + destruct (time_get_state_cost (resolved_state st)
                  (plain (resolve st (as_local ev)))
                  (afterSunset (resolve st (as_local ev)))
                  (afterNightfall (resolve st (as_local ev))))
        as (Hc & Hup & Hdaily).
      rewrite Hget in Hc, Hup, Hdaily. cbn [snd] in Hc, Hup, Hdaily.
      rewrite Hc. split; [reflexivity|].
      split; intros Hk; [rewrite (Hup Hk) | rewrite (Hdaily Hk)]; reflexivity.
  - destruct c; cbn [get_state] in Hget.
    + destruct (info_get_state_frame (resolved_state st)
                  (plain (resolve st (as_local ev)))
                  (afterSunset (resolve st (as_local ev)))
                  (afterNightfall (resolve st (as_local ev))))
        as (Ht & Hc & _).
      rewrite Hget in Ht, Hc. cbn [snd] in Ht, Hc. rewrite Ht, Hc.
      split; reflexivity.
    + destruct (time_get_state_cost (resolved_state st)
                  (plain (resolve st (as_local ev)))
                  (afterSunset (resolve st (as_local ev)))
                  (afterNightfall (resolve st (as_local ev))))
        as (Hc & Hup & Hdaily).
      rewrite Hget in Hc, Hup, Hdaily. cbn [snd] in Hc, Hup, Hdaily.
      rewrite Hc. split; [reflexivity|].
      split; intros Hk; [rewrite (Hup Hk) | rewrite (Hdaily Hk)]; reflexivity.
Qed.

(** X9. Skipped cycles: as long as the sunset lookup has no answer for the
    civil date of the clock reading that starts each cycle, [n] updates
    leave the sensor object as it was and take [n] clock readings. *)
Theorem skipped_cycles_keep_state (c : SensorClass) (n : nat) (st : State) :
  (forall i, (i < n)%nat ->
     get_astral_event_date SUN_EVENT_SUNSET
       (dt_date (clock (ticks st + i)%nat)) = None) ->
  self (poll_n c n st) = self st /\
  ticks (poll_n c n st) = (ticks st + n)%nat.
Proof.
  revert st. induction n as [|n IH]; intros st Hdark; cbn [poll_n].
  - split; [reflexivity | lia].
  - assert (Hnow : get_astral_event_date SUN_EVENT_SUNSET (today st) = None).
    { unfold today. specialize (Hdark 0%nat).
      rewrite Nat.add_0_r in Hdark. apply Hdark. lia. }
    assert (Hpoll : poll c st = skipped_state st).
    { unfold poll, async_update.
      rewrite (async_update_skipped _ _ Hnow). reflexivity. }
    rewrite Hpoll.
    destruct (IH (skipped_state st)) as [Hs Ht].
    { intros i Hi. cbn [ticks skipped_state].
      replace (S (ticks st) + i)%nat with (ticks st + S i)%nat by lia.
      apply Hdark. lia. }
    rewrite Hs, Ht. cbn [self ticks skipped_state]. split; [reflexivity | lia].
Qed.

(** What [get_state] of a time sensor returns. *)
Lemma time_get_state_value (st st' : State) (a b c : HDate.t) (v : Value) :
  JewishCalendarTimeSensor.get_state a b c st = (Ok v, st') ->
  timestamp_or_none v.
Proof.
  unfold JewishCalendarTimeSensor.get_state. unfold_methods. cbn.
  repeat (split_key st);
    try (destruct (zmanim _ !! _); cbn);
    intros [= <- <-];
    try (destruct (candle_lighting _)); try (destruct (havdalah _));
    exact I.
Qed.

(** X10. A time sensor shows a timestamp or nothing: after any number of
    updates the value of a time sensor is a [datetime] or [None], never a
    string or a number, whatever its key. *)
Theorem time_sensor_value_is_timestamp (entry_id : string) (data : EntryData)
    (description : SensorEntityDescription) (n : nat) :
  timestamp_or_none
    (_attr_native_value
       (self (poll_n TimeSensor n
                (initial_state
                   (JewishCalendarSensor.__init__ entry_id data description))))).
Proof.
  assert (Hinv : forall st,
             timestamp_or_none (_attr_native_value (self st)) ->
             timestamp_or_none
               (_attr_native_value (self (poll_n TimeSensor n st)))).
  { induction n as [|n IH]; intros st HP; cbn [poll_n]; [exact HP|].
    apply IH. unfold poll.
    destruct (async_update_cases TimeSensor st)
      as [[_ Hrun] | [(ev & v & st' & _ & Hget & Hrun)
                     | (ev & e' & st' & _ & Hget & Hrun)]];
      rewrite Hrun; cbn [snd self skipped_state].
    - exact HP.
    - cbn. cbn [get_state] in Hget.
      eapply time_get_state_value. exact Hget.
    - apply get_state_raise in Hget as [Hself _]. rewrite Hself. exact HP. }
  apply Hinv. exact I.
Qed.
(** One update of a sensor that has no branch assigning the options. *)
Lemma poll_options (c : SensorClass) (st : State) :
  c = TimeSensor \/
  (key (entity_description (self st)) <> "weekly_portion" /\
   key (entity_description (self st)) <> "holiday") ->
  _attr_options (self (poll c st)) = _attr_options (self st).
Proof.
  intros Hc. unfold poll.
  destruct (async_update_cases c st)
    as [[_ Hrun] | [(ev & v & st' & _ & Hget & Hrun)
                   | (ev & e' & st' & _ & Hget & Hrun)]];
    rewrite Hrun; cbn [snd self skipped_state].
  - reflexivity.
  - pose proof (get_state_options c (resolved_state st)
                  (plain (resolve st (as_local ev)))
                  (afterSunset (resolve st (as_local ev)))
                  (afterNightfall (resolve st (as_local ev))) Hc) as Ho.
    rewrite Hget in Ho. exact Ho.
  - apply get_state_raise in Hget as [Hself _]. rewrite Hself. reflexivity.
Qed.

(** X11. The catalog and the options agree: for every sensor that
    [async_setup_entry] sets up, an update with a sunset for today leaves
    an options list exactly when the descriptor of the sensor declares the
    device class [ENUM]. *)
Theorem enum_sensors_have_options (entry_id : string) (entry : EntryData)
    (c : SensorClass) (st : State) (event_date : datetime) :
  (c, self st) ∈ async_setup_entry entry_id entry ->
  _attr_options (self st) = None ->
  get_astral_event_date SUN_EVENT_SUNSET (today st) = Some event_date ->
  (is_Some (_attr_options (self (poll c st))) <->
   device_class (entity_description (self st)) = Some ENUM).
Proof.
  intros Hin Hnone Hsun.
  assert (Hno : c = TimeSensor \/
                (key (entity_description (self st)) <> "weekly_portion" /\
                 key (entity_description (self st)) <> "holiday") ->
                device_class (entity_description (self st)) = None ->
                is_Some (_attr_options (self (poll c st))) <->
                device_class (entity_description (self st)) = Some ENUM).
  { intros Hc Hdc. rewrite (poll_options c st Hc), Hnone, Hdc.
    split; [intros [x Hx]; discriminate | discriminate]. }
  unfold async_setup_entry, INFO_SENSORS, TIME_SENSORS in Hin.
  cbn [map app] in Hin.
  (* date *)
  apply elem_of_cons in Hin as [Hin | Hin].
  { injection Hin as -> Hs. apply Hno; rewrite Hs; cbn;
      [right; split; discriminate | reflexivity]. }
  (* weekly_portion *)
  apply elem_of_cons in Hin as [Hin | Hin].
  { injection Hin as -> Hs.
    assert (Hk : key (entity_description (self (resolved_state st)))
                 = "weekly_portion") by (cbn [self resolved_state];
                                         rewrite Hs; reflexivity).
    pose proof (get_state_weekly_portion (resolved_state st)
                  (plain (resolve st (as_local event_date)))
                  (afterSunset (resolve st (as_local event_date)))
                  (afterNightfall (resolve st (as_local event_date))) Hk)
      as Hget.
    apply publish_ok in Hget. unfold poll, async_update.
    rewrite (async_update_resolved _ _ _ Hsun). cbn [get_state].
    rewrite Hget. cbn. rewrite Hs. cbn. split; eauto. }
  (* holiday *)
  apply elem_of_cons in Hin as [Hin | Hin].
  { injection Hin as -> Hs.
    assert (Hk : key (entity_description (self (resolved_state st)))
                 = "holiday") by (cbn [self resolved_state];
                                  rewrite Hs; reflexivity).
    pose proof (get_state_holiday (resolved_state st)
                  (plain (resolve st (as_local event_date)))
                  (afterSunset (resolve st (as_local event_date)))
                  (afterNightfall (resolve st (as_local event_date))) Hk)
      as Hget.
    apply publish_ok in Hget. unfold poll, async_update.
    rewrite (async_update_resolved _ _ _ Hsun). cbn [get_state].
    rewrite Hget. cbn. rewrite Hs. cbn. split; eauto. }
  (* omer_count, daf_yomi and the time sensors *)
  repeat (apply elem_of_cons in Hin as [Hin | Hin];
          [injection Hin as -> Hs; apply Hno; rewrite Hs; cbn;
           [first [left; reflexivity | right; split; discriminate]
           | reflexivity]|]).
  apply elem_of_nil in Hin. contradiction.
Qed.
End Updates.

(** ** Unique ids *)

Lemma hyphen_free_app (a b : string) :
  hyphen_free (a +:+ String hyphen b) = false.
Proof.
  induction a as [|c a IH]; [reflexivity|].
  change (hyphen_free (String c (a +:+ String hyphen b)) = false).
  cbn [hyphen_free]. destruct (Ascii.eqb c hyphen); [reflexivity | exact IH].
Qed.

(** An id [entry_id-key] with a key that has no hyphen gives back the
    entry id and the key. *)
Lemma unique_id_inj (e e' k k' : string) :
  hyphen_free k = true -> hyphen_free k' = true ->
  e +:+ "-" +:+ k = e' +:+ "-" +:+ k' -> e = e' /\ k = k'.
Proof.
  change ("-" +:+ k) with (String hyphen k).
  change ("-" +:+ k') with (String hyphen k').
  intros Hk Hk'. revert e'.
  induction e as [|c e IH]; intros [|c' e'] Heq.
  - change (String hyphen k = String hyphen k') in Heq.
    injection Heq as ->. split; reflexivity.
  - change (String hyphen k = String c' (e' +:+ String hyphen k')) in Heq.
    injection Heq as _ ->. rewrite hyphen_free_app in Hk. discriminate.
  - change (String c (e +:+ String hyphen k) = String hyphen k') in Heq.
    injection Heq as _ <-. rewrite hyphen_free_app in Hk'. discriminate.
  - change (String c (e +:+ String hyphen k)
            = String c' (e' +:+ String hyphen k')) in Heq.
    injection Heq as -> Heq. destruct (IH e' Heq) as [-> ->].
    split; reflexivity.
Qed.

Lemma NoDup_map_eq {A B : Type} (f : A -> B) (l : list A) (x y : A) :
  NoDup (map f l) -> In x l -> In y l -> f x = f y -> x = y.
Proof.
  induction l as [|a l IH]; cbn; intros Hnd Hx Hy Hf; [contradiction|].
  apply NoDup_cons in Hnd as [Ha Hnd].
  destruct Hx as [-> | Hx], Hy as [-> | Hy].
  - reflexivity.
  - exfalso. apply Ha. rewrite Hf. apply list_elem_of_In, in_map, Hy.
  - exfalso. apply Ha. rewrite <- Hf. apply list_elem_of_In, in_map, Hx.
  - apply IH; assumption.
Qed.

(** X13. Unique ids identify a sensor: if two sensors set up by
    [async_setup_entry], for the same or for different configuration
    entries, have the same unique id, then the entry ids are the same and
    the two sensors are the same entry of the catalog, of the same class.
    No key of the catalog has a hyphen in it, so the id splits in one way
    only. *)
Theorem unique_ids_identify_sensors `{Host} (e e' : string)
    (data data' : EntryData) (x x' : SensorClass * Sensor) :
  x ∈ async_setup_entry e data ->
  x' ∈ async_setup_entry e' data' ->
  _attr_unique_id (snd x) = _attr_unique_id (snd x') ->
  e = e' /\ fst x = fst x' /\
  entity_description (snd x) = entity_description (snd x').
Proof.
  set (g := fun y : SensorClass * Sensor => (fst y, entity_description (snd y))).
  set (tagged := (map (fun d => (InfoSensor, d)) INFO_SENSORS
                  ++ map (fun d => (TimeSensor, d)) TIME_SENSORS)%list).
  assert (Hg : forall e0 data0 y,
             y ∈ async_setup_entry e0 data0 ->
             In (g y) tagged /\
             _attr_unique_id (snd y)
             = e0 +:+ "-" +:+ key (entity_description (snd y))).
  { intros e0 data0 y Hy. split.
    - apply list_elem_of_In in Hy. apply (in_map g) in Hy. exact Hy.
    - unfold async_setup_entry, INFO_SENSORS, TIME_SENSORS in Hy.
      cbn [map app] in Hy.
      repeat (apply elem_of_cons in Hy as [-> | Hy]; [reflexivity|]).
      apply elem_of_nil in Hy. contradiction. }
  assert (Hfree : Forall (fun p => hyphen_free (key (snd p)) = true) tagged).
  { subst tagged. unfold INFO_SENSORS, TIME_SENSORS. cbn [map app].
    repeat (constructor; [reflexivity|]). constructor. }
  assert (Hnd : NoDup (map (fun p => key (snd p)) tagged)).
  { subst tagged. apply (bool_decide_unpack _). vm_compute. reflexivity. }
  intros Hx Hx' Hid.
  destruct (Hg e data x Hx) as [Hin Hu], (Hg e' data' x' Hx') as [Hin' Hu'].
  rewrite Hu, Hu' in Hid.
  rewrite Forall_forall in Hfree.
  apply unique_id_inj in Hid as [He Hk].
  - split; [exact He|].
    assert (Hgg : g x = g x').
    { apply (NoDup_map_eq (fun p => key (snd p)) tagged);
        [exact Hnd | exact Hin | exact Hin' | exact Hk]. }
    injection Hgg as Hc Hd. split; assumption.
  - apply (Hfree (g x)). apply list_elem_of_In. exact Hin.
  - apply (Hfree (g x')). apply list_elem_of_In. exact Hin'.
Qed.

(** ** The further properties at work *)

Section UpdateScenarios.
#[local] Existing Instance Sample.calendar.

(** The [date] sensor on a calendar without months. *)
Lemma date_update_fails_iff_witness :
  key (entity_description (self (Sample.start "date"))) = "date" /\
  @get_astral_event_date Sample.noon SUN_EVENT_SUNSET
    (@today Sample.noon (Sample.start "date")) = Some (Sample.sunset_of 4) /\
  fst (@async_update no_months Sample.noon InfoSensor (Sample.start "date"))
  = Raise IndexError /\
  self (@poll no_months Sample.noon InfoSensor (Sample.start "date"))
  = Sample.sensor "date".
Proof.
  destruct (@date_update_fails_iff no_months Sample.noon (Sample.start "date")
              (Sample.sunset_of 4) eq_refl eq_refl) as [Hiff Hself].
  assert (Hraise : fst (@async_update no_months Sample.noon InfoSensor
                          (Sample.start "date")) = Raise IndexError).
  { apply Hiff. reflexivity. }
  split; [reflexivity|]. split; [reflexivity|]. split; [exact Hraise|].
  exact (Hself Hraise).
Defined.

Lemma options_stay_unset_witness :
  _attr_options
    (self (@poll_n _ Sample.midnight TimeSensor 3
             (initial_state
                (@JewishCalendarSensor.__init__ Sample.midnight "entry"
                   Sample.entry
                   (mk_description "sunrise" "Hanetz Hachama"
                      "mdi:calendar-clock" None None)))))
  = None /\
  _attr_options
    (self (@poll_n _ Sample.midnight InfoSensor 3
             (initial_state
                (@JewishCalendarSensor.__init__ Sample.midnight "entry"
                   Sample.entry
                   (mk_description "date" "Date" "mdi:star-david"
                      (Some "hebrew_date") None)))))
  = None.
Proof.
  split.
  - apply (@options_stay_unset _ Sample.midnight TimeSensor).
    left. reflexivity.
  - apply (@options_stay_unset _ Sample.midnight InfoSensor).
    right. split; by_computation.
Defined.

Lemma catalog_info_sensors_are_mapped_witness :
  (entity_description (self (initial_state omer_sensor)) ∈ INFO_SENSORS) /\
  fst (@JewishCalendarSensor.get_state _ Sample.saturday Sample.sunday
         Sample.saturday (initial_state omer_sensor))
  <> Ok VNone.
Proof.
  assert (Hin : entity_description (self (initial_state omer_sensor))
                ∈ INFO_SENSORS).
  { unfold INFO_SENSORS. do 3 right. left. }
  split; [exact Hin|].
  apply (@catalog_info_sensors_are_mapped _ (initial_state omer_sensor)
           Sample.saturday Sample.sunday Sample.saturday Hin).
Defined.

(** Monday at noon: the omer sensor reads the clock once and makes one
    table, the sunrise sensor reads it twice and makes two. *)
Lemma update_cost_witness :
  (ticks (@poll _ Sample.noon InfoSensor (initial_state omer_sensor)) = 1%nat /\
   tables_made
     (calls (@poll _ Sample.noon InfoSensor (initial_state omer_sensor)))
   = 1%nat) /\
  ticks (@poll _ Sample.noon TimeSensor (Sample.start "sunrise")) = 2%nat /\
  tables_made (calls (@poll _ Sample.noon TimeSensor (Sample.start "sunrise")))
  = 2%nat /\
  ticks (@poll _ Sample.noon TimeSensor (Sample.start "upcoming_havdalah"))
  = 1%nat.
Proof.
  pose proof (@update_cost _ Sample.noon InfoSensor (initial_state omer_sensor))
    as Hinfo.
  pose proof (@update_cost _ Sample.noon TimeSensor (Sample.start "sunrise"))
    as Hdaily.
  pose proof (@update_cost _ Sample.noon TimeSensor
                (Sample.start "upcoming_havdalah")) as Hup.
  change (@get_astral_event_date Sample.noon SUN_EVENT_SUNSET
            (@today Sample.noon (initial_state omer_sensor)))
    with (Some (Sample.sunset_of 4)) in Hinfo.
  change (@get_astral_event_date Sample.noon SUN_EVENT_SUNSET
            (@today Sample.noon (Sample.start "sunrise")))
    with (Some (Sample.sunset_of 4)) in Hdaily.
  change (@get_astral_event_date Sample.noon SUN_EVENT_SUNSET
            (@today Sample.noon (Sample.start "upcoming_havdalah")))
    with (Some (Sample.sunset_of 4)) in Hup.
  cbv beta iota in Hinfo, Hdaily, Hup.
  destruct Hdaily as (Htables & _ & Hticks), Hup as (_ & Hticks' & _).
  split; [exact Hinfo|]. split; [|split].
  - apply Hticks. by_decide.
  - exact Htables.
  - apply Hticks'. by_decide.
Defined.

(** Three updates where the sun does not set. *)
Lemma skipped_cycles_keep_state_witness :
  (forall i, (i < 3)%nat ->
     @get_astral_event_date Sample.polar SUN_EVENT_SUNSET
       (dt_date (@clock Sample.polar (ticks (Sample.start "date") + i)%nat))
     = None) /\
  self (@poll_n _ Sample.polar InfoSensor 3 (Sample.start "date"))
  = Sample.sensor "date" /\
  ticks (@poll_n _ Sample.polar InfoSensor 3 (Sample.start "date")) = 3%nat.
Proof.
  assert (Hdark : forall i, (i < 3)%nat ->
            @get_astral_event_date Sample.polar SUN_EVENT_SUNSET
              (dt_date (@clock Sample.polar
                          (ticks (Sample.start "date") + i)%nat))
            = None).
  { intros [|i] _; reflexivity. }
  split; [exact Hdark|].
  apply (@skipped_cycles_keep_state _ Sample.polar InfoSensor 3
           (Sample.start "date") Hdark).
Defined.

(** The holiday sensor of the catalog is declared [ENUM] and has options
    after an update; the omer sensor is not and has none. *)
Lemma enum_sensors_have_options_witness :
  ((InfoSensor, self (initial_state holiday_sensor))
   ∈ @async_setup_entry Sample.noon "entry" Sample.entry) /\
  @get_astral_event_date Sample.noon SUN_EVENT_SUNSET
    (@today Sample.noon (initial_state holiday_sensor))
  = Some (Sample.sunset_of 4) /\
  is_Some (_attr_options
             (self (@poll _ Sample.noon InfoSensor
                      (initial_state holiday_sensor)))) /\
  ~ is_Some (_attr_options
               (self (@poll _ Sample.noon InfoSensor
                        (initial_state omer_sensor)))).
Proof.
  assert (Hin : (InfoSensor, self (initial_state holiday_sensor))
                ∈ @async_setup_entry Sample.noon "entry" Sample.entry).
  { unfold async_setup_entry, INFO_SENSORS. cbn [map app]. do 2 right. left. }
  assert (Hin' : (InfoSensor, self (initial_state omer_sensor))
                 ∈ @async_setup_entry Sample.noon "entry" Sample.entry).
  { unfold async_setup_entry, INFO_SENSORS. cbn [map app]. do 3 right. left. }
  split; [exact Hin|]. split; [reflexivity|]. split.
  - apply (@enum_sensors_have_options _ Sample.noon "entry" Sample.entry
             InfoSensor (initial_state holiday_sensor) (Sample.sunset_of 4)
             Hin eq_refl eq_refl).
    reflexivity.
  - intros Hsome.
    apply (@enum_sensors_have_options _ Sample.noon "entry" Sample.entry
             InfoSensor (initial_state omer_sensor) (Sample.sunset_of 4)
             Hin' eq_refl eq_refl) in Hsome.
    discriminate Hsome.
Defined.

(** The same id under two set-ups is the same sensor of the same entry. *)
Lemma unique_ids_identify_sensors_witness :
  ((InfoSensor, holiday_sensor)
   ∈ @async_setup_entry Sample.noon "entry" Sample.entry) /\
  _attr_unique_id holiday_sensor = "entry-holiday" /\
  "entry" = "entry" /\
  entity_description holiday_sensor = entity_description holiday_sensor.
Proof.
  assert (Hin : (InfoSensor, holiday_sensor)
                ∈ @async_setup_entry Sample.noon "entry" Sample.entry).
  { unfold async_setup_entry, INFO_SENSORS. cbn [map app]. do 2 right. left. }
  split; [exact Hin|]. split; [reflexivity|].
  destruct (@unique_ids_identify_sensors Sample.noon "entry" "entry"
              Sample.entry Sample.entry _ _ Hin Hin eq_refl)
    as (He & _ & Hd).
  split; [exact He | exact Hd].
Defined.
End UpdateScenarios.
